(** * Information Exchange Server: registry and router

    A shallow embedding of [server.cpp]: the registration handshake and the
    receive loop of [handle_client], the router [route_tcp_message], the
    datagram fan-out [send_udp_broadcast] and the console command loop
    [handle_server_input], over the global map [active_clients]; and of
    the parts of [client.cpp] that talk to it: the start of [main] with
    [setup_udp_listener] and [setup_tcp_connection], and the input loop.

    Conventions.
    - [std::string] is [string]; a [char] is an [ascii] (a byte).
    - [std::map<std::string, ClientInfo>] is a [gmap string ClientInfo];
      its iteration order (ascending keys) is restored by sorting.
    - Socket descriptors and [int] values are [Z].
    - Everything the server does to the outside world (socket writes,
      datagrams, closing a descriptor, taking and releasing [clients_mutex],
      console lines) is appended, in program order, to the field [out] of
      the server state.
    - Whether a [send] or [sendto] that returns has succeeded is decided
      by the environment: a [Net] oracle that sees the whole history.  A
      stream write that does not return, because it raises SIGPIPE and so
      ends the process, is an event of the process ([Sigpipe]). *)

From stdpp Require Import base gmap strings list sorting fin_maps.
From Stdlib Require Import ZArith Ascii String Lia.

Local Open Scope string_scope.

(** ** [std::string] operations used by the server *)

Module Str.

(** [s.find(c)]: index of the first occurrence, [None] for [npos]. *)
Fixpoint find (c : ascii) (s : string) : option nat :=
  match s with
  | EmptyString => None
  | String a r => if Ascii.eqb a c then Some 0 else S <$> find c r
  end.

(** The first [n] characters of [s] (all of it when it is shorter). *)
Fixpoint take (n : nat) (s : string) : string :=
  match n, s with
  | S n', String a r => String a (take n' r)
  | _, _ => EmptyString
  end.

(** [s.substr(pos)] for [pos <= s.size()], the only way the server
    calls it. *)
Fixpoint drop (pos : nat) (s : string) : string :=
  match pos, s with
  | S p, String _ r => drop p r
  | _, _ => s
  end.

(** [s.substr(pos, n)] for [pos <= s.size()]. *)
Definition substr (s : string) (pos n : nat) : string := take n (drop pos s).

(** [std::string(buffer)] for a [char] buffer: the bytes before the
    first NUL. *)
Fixpoint c_str (buffer : string) : string :=
  match buffer with
  | EmptyString => EmptyString
  | String a r => if Ascii.eqb a Ascii.zero then EmptyString else String a (c_str r)
  end.

End Str.

(** ** [std::stoi]

    [std::stoi(str)] calls [strtol] in base 10: leading white space is
    skipped, one optional sign is read, then the longest run of decimal
    digits; what follows the digits is ignored.  It throws
    [invalid_argument] when there is no digit and [out_of_range] when the
    value does not fit an [int].  [None] stands for a thrown exception. *)

Module Stoi.

Definition INT_MAX : Z := 2147483647.
Definition INT_MIN : Z := -2147483648.

Definition isspace (c : ascii) : bool :=
  let n := nat_of_ascii c in
  Nat.eqb n 32 || (Nat.leb 9 n && Nat.leb n 13).

Definition isdigit (c : ascii) : bool :=
  let n := nat_of_ascii c in Nat.leb 48 n && Nat.leb n 57.

Definition digit_value (c : ascii) : Z := Z.of_nat (nat_of_ascii c) - 48.

Fixpoint skip_space (s : string) : string :=
  match s with
  | String c r => if isspace c then skip_space r else s
  | EmptyString => s
  end.

(** Value of the longest prefix of digits of [s], continuing from [acc]. *)
Fixpoint digits (acc : Z) (s : string) : Z :=
  match s with
  | String c r => if isdigit c then digits (10 * acc + digit_value c) r else acc
  | EmptyString => acc
  end.

Definition starts_with_digit (s : string) : bool :=
  match s with
  | String c _ => isdigit c
  | EmptyString => false
  end.

Definition stoi (str : string) : option Z :=
  let s := skip_space str in
  let '(negative, s) :=
    match s with
    | String "-" r => (true, r)
    | String "+" r => (false, r)
    | _ => (false, s)
    end in
  if starts_with_digit s then
    let v := if negative : bool then (- digits 0 s)%Z else digits 0 s in
    if (INT_MIN <=? v)%Z && (v <=? INT_MAX)%Z then Some v else None
  else None.

End Stoi.

(** ** Data model *)

(** [struct sockaddr_in]: the IPv4 address and the port the structure
    denotes ([sin_family] is always [AF_INET]). *)
Record sockaddr_in := { sin_addr : Z; sin_port : Z }.

(** [htons] takes a [uint16_t]: the [int] argument is reduced modulo 2^16.
    [sin_port] holds the port number this denotes, byte order aside. *)
Definition htons (x : Z) : Z := (x mod 65536)%Z.

Definition BUFFER_SIZE : Z := 1024.

Record ClientInfo := {
  tcp_socket : Z;
  campus_name : string;
  udp_addr : sockaddr_in
}.

#[global] Instance sockaddr_in_eq_dec : EqDecision sockaddr_in.
Proof. solve_decision. Defined.
#[global] Instance ClientInfo_eq_dec : EqDecision ClientInfo.
Proof. solve_decision. Defined.

(** Lines written to [std::cout], [std::cerr] or by [perror]. *)
Inductive log :=
  | LogAcceptFailed
  | LogAccepted (client_addr : sockaddr_in)
  | LogRegistration (campus_name : string) (udp_port : Z)
  | LogInvalidPort
  | LogRegisterFailed
  | LogDisconnect (campus_name : string)
  | LogRecvFailed
  | LogRemoved (campus_name : string)
  | LogInvalidFormat (sender_name full_message : string)
  | LogRouting (sender_name destination : string)
  | LogSendFailed
  | LogRouted (destination : string)
  | LogNotFound (destination : string)
  | LogBroadcastStart (message : string)
  | LogUdpFail (campus_name : string)
  | LogBroadcastSummary (total success_count : Z)
  | LogShutdown
  | LogUnknownCommand.

(** What the server does to its environment. *)
Inductive io :=
  | Lock                                  (* clients_mutex acquired *)
  | Unlock                                (* clients_mutex released *)
  | TcpSend (sock : Z) (msg : string)     (* send(sock, msg) *)
  | UdpSend (addr : sockaddr_in) (msg : string)  (* sendto(udp_broadcast_socket, msg, addr) *)
  | CloseSock (sock : Z)                  (* close(sock) *)
  | Log (l : log).

#[global] Instance log_eq_dec : EqDecision log.
Proof. solve_decision. Defined.
#[global] Instance io_eq_dec : EqDecision io.
Proof. solve_decision. Defined.

(** The environment: does a [send] / [sendto] issued after the history
    [h] succeed (return value not negative)? *)
Record Net := {
  send_ok : list io → Z → string → bool;
  sendto_ok : list io → sockaddr_in → string → bool
}.

(** A network on which every write succeeds. *)
Definition ideal_net : Net :=
  {| send_ok := λ _ _ _, true; sendto_ok := λ _ _ _, true |}.

(** The global state of the server process. *)
Record Server := {
  active_clients : gmap string ClientInfo;
  out : list io
}.

Definition emit (e : io) (s : Server) : Server :=
  {| active_clients := active_clients s; out := out s ++ [e] |}.

(** Result of one [recv] on a stream socket: the bytes read
    ([bytes_received] is their number, 0 at end of stream) or an error
    ([bytes_received < 0]).  The server calls
    [recv(client_sock, buffer, BUFFER_SIZE - 1, 0)], so the bytes of a
    result the server can get satisfy [fits_buffer]; a result that does
    not is one no run produces. *)
Inductive recv_result :=
  | Received (data : string)
  | RecvError.

#[global] Instance recv_result_eq_dec : EqDecision recv_result.
Proof. solve_decision. Defined.

Definition fits_buffer (data : string) : Prop :=
  (Z.of_nat (String.length data) ≤ BUFFER_SIZE - 1)%Z.

(** [recv(client_sock, buffer, BUFFER_SIZE - 1, 0)] when the bytes
    [arrived] are waiting on the socket and all of them are handed over
    that fit: the first [BUFFER_SIZE - 1] at most (the rest stays for the
    next [recv]). *)
Definition recv (arrived : string) : recv_result :=
  Received (Str.take (Z.to_nat (BUFFER_SIZE - 1)) arrived).

Definition key_le (p q : string * ClientInfo) : Prop :=
  String.leb p.1 q.1 = true.

#[global] Instance key_le_dec p q : Decision (key_le p q).
Proof. unfold key_le. apply _. Defined.

(** The entries of the map in the order a range-for visits them. *)
Definition in_order (m : gmap string ClientInfo) : list (string * ClientInfo) :=
  merge_sort key_le (map_to_list m).

Section server.

Variable net : Net.

(** [send(sock, msg.c_str(), msg.length(), 0) >= 0], for a [send] that
    returns: the write is made and the oracle says whether it succeeded
    ([false]: it returned an error such as ECONNRESET or EBADF).  The
    flags are 0 and the server never changes the disposition of SIGPIPE,
    so a write on a stream whose peer has gone may not return at all:
    see [route_tcp_message_sigpipe], [handle_client_registration_sigpipe]
    and the event [Sigpipe]. *)
Definition send (sock : Z) (msg : string) (s : Server) : bool * Server :=
  (send_ok net (out s) sock msg, emit (TcpSend sock msg) s).

(** [sendto(udp_broadcast_socket, msg.c_str(), msg.length(), 0, addr) >= 0] *)
Definition sendto (addr : sockaddr_in) (msg : string) (s : Server) : bool * Server :=
  (sendto_ok net (out s) addr msg, emit (UdpSend addr msg) s).

(** *** [send_udp_broadcast] *)

(** The range-for over [active_clients], with the two counters. *)
Fixpoint broadcast_loop (message : string) (l : list (string * ClientInfo))
    (success_count fail_count : Z) (s : Server) : Z * Z * Server :=
  match l with
  | [] => (success_count, fail_count, s)
  | (name, client) :: l' =>
      let '(ok, s) := sendto (udp_addr client) message s in
      if ok : bool
      then broadcast_loop message l' (success_count + 1)%Z fail_count s
      else broadcast_loop message l' success_count (fail_count + 1)%Z
             (emit (Log (LogUdpFail name)) s)
  end.

Definition send_udp_broadcast (message : string) (s : Server) : Server :=
  let s := emit Lock s in
  let s := emit (Log (LogBroadcastStart message)) s in
  let '(success_count, _, s) :=
    broadcast_loop message (in_order (active_clients s)) 0%Z 0%Z s in
  let s := emit (Log (LogBroadcastSummary
                        (Z.of_nat (size (active_clients s))) success_count)) s in
  emit Unlock s.

(** *** [route_tcp_message] *)

Definition route_tcp_message (sender_name full_message : string) (s : Server) : Server :=
  match Str.find ":" full_message with
  | None => emit (Log (LogInvalidFormat sender_name full_message)) s
  | Some colon_pos =>
      let destination := Str.substr full_message 0 colon_pos in
      let content := Str.drop (colon_pos + 1) full_message in
      let final_msg := "FROM " +:+ sender_name +:+ ": " +:+ content in
      let s := emit (Log (LogRouting sender_name destination)) s in
      if decide (destination = "BROADCAST") then
        let broadcast_msg := "BROADCAST FROM " +:+ sender_name +:+ ": " +:+ content in
        send_udp_broadcast broadcast_msg s
      else
        let s := emit Lock s in
        let s :=
          match active_clients s !! destination with
          | Some it =>
              let dest_sock := tcp_socket it in
              let '(ok, s) := send dest_sock final_msg s in
              if ok : bool then emit (Log (LogRouted destination)) s
              else emit (Log LogSendFailed) s
          | None =>
              let s :=
                match active_clients s !! sender_name with
                | Some sender_it =>
                    let error_msg :=
                      "SERVER: Error: Campus '" +:+ destination +:+
                      "' is not currently active." in
                    (send (tcp_socket sender_it) error_msg s).2
                | None => s
                end in
              emit (Log (LogNotFound destination)) s
          end in
        emit Unlock s
  end.

(** *** [handle_client]

    The function blocks in [recv]; it is split at those points.
    [handle_client_registration] is the code run on the result of the
    first [recv] (up to the test of [is_registered]); it returns
    [Some campus_name] when the thread goes on to the receive loop and
    [None] when it has closed the socket and returned. *)

Definition handle_client_registration (client_sock : Z) (client_addr : sockaddr_in)
    (r : recv_result) (s : Server) : option string * Server :=
  let fail (s : Server) :=
    (None, emit (CloseSock client_sock) (emit (Log LogRegisterFailed) s)) in
  match r with
  | Received (String _ _ as buffer) =>
      let initial_msg := Str.c_str buffer in
      match Str.find ":" initial_msg with
      | Some colon_pos =>
          let campus_name := Str.substr initial_msg 0 colon_pos in
          match Stoi.stoi (Str.drop (colon_pos + 1) initial_msg) with
          | Some udp_port =>
              let udp_dest_addr :=
                {| sin_addr := sin_addr client_addr; sin_port := htons udp_port |} in
              let s := emit Lock s in
              let s :=
                {| active_clients :=
                     <[campus_name :=
                         {| tcp_socket := client_sock;
                            campus_name := campus_name;
                            udp_addr := udp_dest_addr |}]> (active_clients s);
                   out := out s |} in
              let s := emit (Log (LogRegistration campus_name udp_port)) s in
              let welcome_msg :=
                "SERVER: Welcome, " +:+ campus_name +:+
                "! TCP and UDP services active." in
              let s := (send client_sock welcome_msg s).2 in
              (Some campus_name, emit Unlock s)
          | None => fail (emit (Log LogInvalidPort) s)
          end
      | None => fail s
      end
  | _ => fail s
  end.

(** One turn of the receive loop on the result of [recv]: route the
    message and stay in the loop ([true]), or leave the loop, close the
    socket and erase the entry of [campus_name] ([false]). *)
Definition handle_client_receive (campus_name : string) (client_sock : Z)
    (r : recv_result) (s : Server) : bool * Server :=
  let cleanup (s : Server) :=
    let s := emit (CloseSock client_sock) s in
    let s := emit Lock s in
    let s := {| active_clients := delete campus_name (active_clients s);
                out := out s |} in
    let s := emit (Log (LogRemoved campus_name)) s in
    (false, emit Unlock s) in
  match r with
  | Received (String _ _ as buffer) =>
      (true, route_tcp_message campus_name (Str.c_str buffer) s)
  | Received EmptyString => cleanup (emit (Log (LogDisconnect campus_name)) s)
  | RecvError => cleanup (emit (Log LogRecvFailed) s)
  end.

(** The way out of the loop has a blocking point of its own: the thread
    closes its socket and only then takes [clients_mutex], so other
    threads can run in between.  [handle_client_hangup] is the code from
    the end of the loop to [close(client_sock)], and
    [handle_client_unregister] the rest, from the [lock_guard] to the
    return; [handle_client_receive] above runs the two without a
    break. *)
Definition handle_client_hangup (campus_name : string) (client_sock : Z)
    (r : recv_result) (s : Server) : Server :=
  let s := emit (Log (match r with
                      | RecvError => LogRecvFailed
                      | Received _ => LogDisconnect campus_name
                      end)) s in
  emit (CloseSock client_sock) s.

Definition handle_client_unregister (campus_name : string) (s : Server) : Server :=
  let s := emit Lock s in
  let s := {| active_clients := delete campus_name (active_clients s);
              out := out s |} in
  let s := emit (Log (LogRemoved campus_name)) s in
  emit Unlock s.

(** *** A stream write that raises SIGPIPE

    The handshake and the router up to a [send] that raises SIGPIPE: the
    state in which the process ends (the directory as it is, the output up
    to the write, the mutex still held), or [None] when the code makes no
    stream write on this input. *)
Definition handle_client_registration_sigpipe (client_sock : Z)
    (client_addr : sockaddr_in) (buffer : string) (s : Server) : option Server :=
  match buffer with
  | String _ _ =>
      let initial_msg := Str.c_str buffer in
      match Str.find ":" initial_msg with
      | Some colon_pos =>
          let campus_name := Str.substr initial_msg 0 colon_pos in
          match Stoi.stoi (Str.drop (colon_pos + 1) initial_msg) with
          | Some udp_port =>
              let udp_dest_addr :=
                {| sin_addr := sin_addr client_addr; sin_port := htons udp_port |} in
              let s := emit Lock s in
              let s :=
                {| active_clients :=
                     <[campus_name :=
                         {| tcp_socket := client_sock;
                            campus_name := campus_name;
                            udp_addr := udp_dest_addr |}]> (active_clients s);
                   out := out s |} in
              let s := emit (Log (LogRegistration campus_name udp_port)) s in
              let welcome_msg :=
                "SERVER: Welcome, " +:+ campus_name +:+
                "! TCP and UDP services active." in
              Some (emit (TcpSend client_sock welcome_msg) s)
          | None => None
          end
      | None => None
      end
  | EmptyString => None
  end.

Definition route_tcp_message_sigpipe (sender_name full_message : string)
    (s : Server) : option Server :=
  match Str.find ":" full_message with
  | None => None
  | Some colon_pos =>
      let destination := Str.substr full_message 0 colon_pos in
      let content := Str.drop (colon_pos + 1) full_message in
      let final_msg := "FROM " +:+ sender_name +:+ ": " +:+ content in
      let s := emit (Log (LogRouting sender_name destination)) s in
      if decide (destination = "BROADCAST") then None
      else
        let s := emit Lock s in
        match active_clients s !! destination with
        | Some it => Some (emit (TcpSend (tcp_socket it) final_msg) s)
        | None =>
            match active_clients s !! sender_name with
            | Some sender_it =>
                let error_msg :=
                  "SERVER: Error: Campus '" +:+ destination +:+
                  "' is not currently active." in
                Some (emit (TcpSend (tcp_socket sender_it) error_msg) s)
            | None => None
            end
        end
  end.

(** *** [handle_server_input]: one turn of the console loop on a line
    read from [std::cin]; [false] is [exit(0)]. *)
Definition handle_server_input (line : string) (s : Server) : bool * Server :=
  if decide (Str.substr line 0 10 = "BROADCAST:") then
    (true, send_udp_broadcast ("SERVER BROADCAST: " +:+ Str.drop 10 line) s)
  else if decide (line = "exit" ∨ line = "quit") then
    (false, emit (Log LogShutdown) s)
  else if decide (line ≠ "") then (true, emit (Log LogUnknownCommand) s)
  else (true, s).

End server.

(** ** The process: threads and their interleaving

    [main] accepts connections and detaches one [handle_client] thread per
    connection; a further thread runs [handle_server_input].  A thread
    that holds an open descriptor is identified by it; a thread that has
    closed its socket and has yet to erase its entry is known by the name
    it will erase.  The interleaving is taken at the points where a
    thread can be held up: each event below runs one thread from the
    point where a blocking call returns (or where it gets
    [clients_mutex]) up to the next such point.  Between a thread's
    [close] and its [lock_guard] other threads may run and [accept] may
    hand the closed descriptor out again: the events [Hangup] and
    [Unregister] are the two halves, and [Recv] with an end of stream or
    an error is the schedule in which nothing comes in between. *)

(** Where a [handle_client] thread is blocked. *)
Inductive thread :=
  | Connected (client_addr : sockaddr_in)   (* in the first [recv] *)
  | Registered (campus_name : string).      (* in the [recv] of the loop *)

#[global] Instance thread_eq_dec : EqDecision thread.
Proof. solve_decision. Defined.

Record System := {
  server : Server;
  threads : gmap Z thread;   (* threads blocked in [recv], by descriptor *)
  closing : list string;     (* threads between [close] and [lock_guard],
                                by [campus_name] *)
  halted : bool
}.

Inductive event :=
  | Accept (client_sock : Z) (client_addr : sockaddr_in)
      (* [accept] returns in [main] *)
  | Recv (client_sock : Z) (r : recv_result)
      (* [recv] returns in the thread serving [client_sock], which runs
         to its next [recv] or to its end *)
  | ConsoleLine (line : string)
      (* [std::getline] returns in [handle_server_input] *)
  | Hangup (client_sock : Z) (r : recv_result)
      (* [recv] returns 0 or an error in the loop of the thread serving
         [client_sock]; the thread closes the socket and waits for
         [clients_mutex] *)
  | Unregister (campus_name : string)
      (* a thread waiting so gets [clients_mutex], erases and ends *)
  | Sigpipe (client_sock : Z) (data : string).
      (* [recv] returns [data] in the thread serving [client_sock], and
         the stream write the thread then makes raises SIGPIPE *)

Definition init : System :=
  {| server := {| active_clients := ∅; out := [] |}; threads := ∅;
     closing := []; halted := false |}.

(** Is this [recv] result the end of the stream or an error? *)
Definition is_hangup (r : recv_result) : bool :=
  match r with
  | Received (String _ _) => false
  | _ => true
  end.

(** One waiting thread less under this name. *)
Fixpoint remove_first (name : string) (l : list string) : option (list string) :=
  match l with
  | [] => None
  | x :: l' =>
      if decide (x = name) then Some l'
      else cons x <$> remove_first name l'
  end.

Section process.

Variable net : Net.

(** [accept] hands out a descriptor that is not open: an [Accept] of a
    descriptor that a thread still holds open, like a [Recv] on a
    descriptor no thread serves, an [Unregister] nobody waits for or a
    [Sigpipe] where no stream write is made, cannot happen and leaves the
    state as it is.  A descriptor is free again as soon as its thread has
    closed it, whether or not the thread's entry is still filed. *)
Definition step (ev : event) (sys : System) : System :=
  if halted sys then sys else
  match ev with
  | Accept client_sock client_addr =>
      if (client_sock <? 0)%Z then
        {| server := emit (Log LogAcceptFailed) (server sys);
           threads := threads sys; closing := closing sys; halted := false |}
      else
        match threads sys !! client_sock with
        | Some _ => sys
        | None =>
            {| server := emit (Log (LogAccepted client_addr)) (server sys);
               threads := <[client_sock := Connected client_addr]> (threads sys);
               closing := closing sys;
               halted := false |}
        end
  | Recv client_sock r =>
      match threads sys !! client_sock with
      | None => sys
      | Some (Connected client_addr) =>
          let '(registered, s) :=
            handle_client_registration net client_sock client_addr r (server sys) in
          {| server := s;
             threads :=
               match registered with
               | Some campus_name =>
                   <[client_sock := Registered campus_name]> (threads sys)
               | None => delete client_sock (threads sys)
               end;
             closing := closing sys;
             halted := false |}
      | Some (Registered campus_name) =>
          let '(looping, s) :=
            handle_client_receive net campus_name client_sock r (server sys) in
          {| server := s;
             threads := if looping : bool then threads sys
                        else delete client_sock (threads sys);
             closing := closing sys;
             halted := false |}
      end
  | ConsoleLine line =>
      let '(running, s) := handle_server_input net line (server sys) in
      {| server := s; threads := threads sys; closing := closing sys;
         halted := negb running |}
  | Hangup client_sock r =>
      match threads sys !! client_sock with
      | Some (Registered campus_name) =>
          if is_hangup r then
            {| server := handle_client_hangup campus_name client_sock r (server sys);
               threads := delete client_sock (threads sys);
               closing := campus_name :: closing sys;
               halted := false |}
          else sys
      | _ => sys
      end
  | Unregister campus_name =>
      match remove_first campus_name (closing sys) with
      | Some rest =>
          {| server := handle_client_unregister campus_name (server sys);
             threads := threads sys;
             closing := rest;
             halted := false |}
      | None => sys
      end
  | Sigpipe client_sock data =>
      let killed :=
        match threads sys !! client_sock with
        | Some (Connected client_addr) =>
            handle_client_registration_sigpipe client_sock client_addr data
              (server sys)
        | Some (Registered campus_name) =>
            match data with
            | String _ _ =>
                route_tcp_message_sigpipe campus_name (Str.c_str data) (server sys)
            | EmptyString => None
            end
        | None => None
        end in
      match killed with
      | Some s =>
          {| server := s; threads := threads sys; closing := closing sys;
             halted := true |}
      | None => sys
      end
  end.

Definition run (evs : list event) (sys : System) : System :=
  fold_left (λ sys ev, step ev sys) evs sys.

End process.

(** The directory lookup of the spec. *)
Definition lookup_client (name : string) (sys : System) : option ClientInfo :=
  active_clients (server sys) !! name.


(** ** What a payload parses to

    The two parsers below name what [handle_client] and
    [route_tcp_message] compute inline; [registration_parse] and
    [route_parse] tie the code to them. *)

(** The first payload: [<campus_name>:<udp_port>]. *)
Definition parse_registration (buffer : string) : option (string * Z) :=
  let initial_msg := Str.c_str buffer in
  colon_pos ← Str.find ":" initial_msg;
  udp_port ← Stoi.stoi (Str.drop (colon_pos + 1) initial_msg);
  Some (Str.substr initial_msg 0 colon_pos, udp_port).

(** A later payload: [<destination>:<content>]. *)
Definition parse_message (full_message : string) : option (string * string) :=
  colon_pos ← Str.find ":" full_message;
  Some (Str.substr full_message 0 colon_pos, Str.drop (colon_pos + 1) full_message).

Definition welcome_msg (campus_name : string) : string :=
  "SERVER: Welcome, " +:+ campus_name +:+ "! TCP and UDP services active.".

Definition not_active_msg (destination : string) : string :=
  "SERVER: Error: Campus '" +:+ destination +:+ "' is not currently active.".

Definition routed_msg (sender_name content : string) : string :=
  "FROM " +:+ sender_name +:+ ": " +:+ content.

Definition broadcast_msg (sender_name content : string) : string :=
  "BROADCAST FROM " +:+ sender_name +:+ ": " +:+ content.

(** The entry [handle_client] stores for a registration. *)
Definition entry_of (client_sock : Z) (client_addr : sockaddr_in)
    (campus_name : string) (udp_port : Z) : ClientInfo :=
  {| tcp_socket := client_sock;
     campus_name := campus_name;
     udp_addr := {| sin_addr := sin_addr client_addr; sin_port := htons udp_port |} |}.

(** The port segment the spec asks for: a non-empty run of decimal digits
    whose value is positive. *)
Fixpoint all_digits (s : string) : bool :=
  match s with
  | EmptyString => true
  | String c r => Stoi.isdigit c && all_digits r
  end.

Definition valid_positive_integer (s : string) : bool :=
  negb (String.eqb s "") && all_digits s && (0 <? Stoi.digits 0 s)%Z.

(** ** Reading the output *)

(** The datagrams in a stretch of output, in order. *)
Definition udp_sends (l : list io) : list (sockaddr_in * string) :=
  omap (λ e, match e with UdpSend a m => Some (a, m) | _ => None end) l.

(** The stream writes in a stretch of output, in order. *)
Definition tcp_sends (l : list io) : list (Z * string) :=
  omap (λ e, match e with TcpSend k m => Some (k, m) | _ => None end) l.

(** The number of [UDP FAIL] lines. *)
Definition is_udp_fail (e : io) : bool :=
  match e with
  | Log (LogUdpFail _) => true
  | _ => false
  end.

Definition udp_fail_lines (l : list io) : nat :=
  List.length (List.filter is_udp_fail l).

(** For every datagram in [evs], in order: did the [sendto] that put it
    there succeed?  [before] is the output that precedes [evs], which is
    what the network had seen. *)
Fixpoint udp_outcomes (net : Net) (before evs : list io) : list bool :=
  match evs with
  | [] => []
  | e :: evs' =>
      match e with
      | UdpSend addr msg => [sendto_ok net before addr msg]
      | _ => []
      end ++ udp_outcomes net (before ++ [e]) evs'
  end.

(** The campus names of the [UDP FAIL] lines, in order. *)
Definition udp_fail_names (l : list io) : list string :=
  omap (λ e, match e with Log (LogUdpFail n) => Some n | _ => None end) l.

(** The entries, of a list of entries and the outcomes of their
    datagrams, whose datagram failed. *)
Definition failed_entries (entries : list (string * ClientInfo))
    (outcomes : list bool) : list string :=
  map (λ p, fst (fst p)) (List.filter (λ p, negb (snd p)) (combine entries outcomes)).

Definition count_true (l : list bool) : Z :=
  Z.of_nat (List.length (List.filter (λ b : bool, b) l)).

Definition count_false (l : list bool) : Z :=
  Z.of_nat (List.length (List.filter negb l)).

Definition is_mutex (e : io) : bool :=
  match e with
  | Lock | Unlock => true
  | _ => false
  end.

Definition is_network_io (e : io) : bool :=
  match e with
  | TcpSend _ _ | UdpSend _ _ => true
  | _ => false
  end.

(** Is some socket write issued while [clients_mutex] is held?  [held]
    says whether it is held at the start of [l]. *)
Fixpoint io_while_locked (held : bool) (l : list io) : bool :=
  match l with
  | [] => false
  | Lock :: l' => io_while_locked true l'
  | Unlock :: l' => io_while_locked false l'
  | e :: l' => (held && is_network_io e) || io_while_locked held l'
  end.

(** Is every socket write issued while [clients_mutex] is held, and is
    the mutex free again at the end? *)
Fixpoint io_all_locked (held : bool) (l : list io) : bool :=
  match l with
  | [] => negb held
  | Lock :: l' => io_all_locked true l'
  | Unlock :: l' => io_all_locked false l'
  | e :: l' => (held || negb (is_network_io e)) && io_all_locked held l'
  end.

(** ** Invariant of the process *)

(** What holds of the directory in every state of the process: an entry
    is filed under its own name, and the name has no [':'].  (That the
    socket of an entry is still open, or still the socket of the session
    that filed it, does not hold: see [Hangup].) *)
Record directory_inv (sys : System) : Prop := {
  inv_name : ∀ name e,
    active_clients (server sys) !! name = Some e → campus_name e = name;
  inv_colon : ∀ name e,
    active_clients (server sys) !! name = Some e → Str.find ":" name = None
}.

(** ** Scenarios *)

(** A peer on the loopback address, [127.0.0.1], with source port
    [50000 + n]. *)
Definition peer (n : Z) : sockaddr_in :=
  {| sin_addr := 2130706433; sin_port := 50000 + n |}.

(** One campus registers under the name of the broadcast keyword. *)
Definition broadcast_named : list event :=
  [Accept 4 (peer 1); Recv 4 (Received "Lahore:9001");
   Accept 5 (peer 2); Recv 5 (Received "BROADCAST:9002")].

(** Two connections register under one name. *)
Definition same_name_twice : list event :=
  [Accept 4 (peer 1); Recv 4 (Received "Lahore:9001");
   Accept 5 (peer 2); Recv 5 (Received "Lahore:9002")].

(** Two campuses. *)
Definition two_campuses : list event :=
  [Accept 4 (peer 1); Recv 4 (Received "Lahore:9001");
   Accept 5 (peer 2); Recv 5 (Received "Karachi:9002")].

(** [std::string(n, c)]. *)
Fixpoint repeat_char (c : ascii) (n : nat) : string :=
  match n with
  | 0 => EmptyString
  | S n' => String c (repeat_char c n')
  end.

(** Three campuses. *)
Definition three_campuses : list event :=
  [Accept 4 (peer 1); Recv 4 (Received "Lahore:9001");
   Accept 5 (peer 2); Recv 5 (Received "Karachi:9002");
   Accept 6 (peer 3); Recv 6 (Received "Multan:9003")].

(** A network on which no datagram for port 9002 can be sent. *)
Definition lossy_net : Net :=
  {| send_ok := λ _ _ _, true;
     sendto_ok := λ _ addr _, negb (sin_port addr =? 9002)%Z |}.

(** The server state with its output so far forgotten. *)
Definition quiet (s : Server) : Server :=
  {| active_clients := active_clients s; out := [] |}.

(** ** More ways to read the output *)

(** The descriptors closed in a stretch of output, in order. *)
Definition closes (l : list io) : list Z :=
  omap (λ e, match e with CloseSock k => Some k | _ => None end) l.

(** [std::mutex] is not recursive: taking it while holding it, or
    releasing it while it is free, is an error.  [mutex_trace held l]
    follows [clients_mutex] through [l], starting from [held]: it is
    [None] at such an error and otherwise says whether the mutex is held
    at the end. *)
Fixpoint mutex_trace (held : bool) (l : list io) : option bool :=
  match l with
  | [] => Some held
  | Lock :: l' => if held then None else mutex_trace true l'
  | Unlock :: l' => if held then mutex_trace false l' else None
  | _ :: l' => mutex_trace held l'
  end.

(** Console lines and datagrams: events that touch neither the mutex,
    nor a stream, nor a descriptor's life. *)
Definition is_plain (e : io) : bool :=
  match e with
  | Log _ | UdpSend _ _ => true
  | _ => false
  end.

(** ** Connections that register *)

(** A peer that connects and sends its first payload. *)
Record connection := {
  conn_sock : Z;
  conn_addr : sockaddr_in;
  conn_data : string
}.

(** [accept] returns the peer's descriptor, then the first [recv] on it
    returns the payload. *)
Definition connect_and_register (c : connection) : list event :=
  [Accept (conn_sock c) (conn_addr c); Recv (conn_sock c) (Received (conn_data c))].

Definition conn_name (c : connection) : option string :=
  fst <$> parse_registration (conn_data c).

Definition conn_entry (c : connection) : option ClientInfo :=
  (λ p, entry_of (conn_sock c) (conn_addr c) p.1 p.2) <$> parse_registration (conn_data c).

(** A string a C buffer holds in full: no NUL byte in it. *)
Definition nul_free (s : string) : Prop := Str.c_str s = s.

(** ** [std::to_string(int)]

    The decimal digits of the value, after a ['-'] when it is negative.
    An [int] has at most ten digits. *)

Module ToString.

Definition digit_char (d : Z) : ascii := ascii_of_nat (48 + Z.to_nat d).

(** The digits of [n >= 0], most significant first, put before [acc];
    [fuel] bounds their number. *)
Fixpoint decimal (fuel : nat) (n : Z) (acc : string) : string :=
  match fuel with
  | O => acc
  | S fuel' =>
      let acc' := String (digit_char (n mod 10)) acc in
      if (n <? 10)%Z then acc' else decimal fuel' (n / 10) acc'
  end.

Definition to_string (n : Z) : string :=
  if (n <? 0)%Z then String "-" (decimal 10 (- n) "") else decimal 10 n "".

End ToString.

(** ** The client, [client.cpp]

    The client's calls into the operating system are events of its own
    output; what the operating system answers is an input. *)

Module Client.

Definition TCP_PORT : Z := 5000.

(** [SERVER_IP], 127.0.0.1. *)
Definition SERVER_IP : Z := 2130706433.

Definition EXIT_SUCCESS : Z := 0.
Definition EXIT_FAILURE : Z := 1.

(** Console lines. *)
Inductive log :=
  | LogUsage (program : string)
  | LogInvalidPort (arg : string)
  | LogUdpSocketFailed
  | LogUdpBindFailed
  | LogUdpBound (port_num : Z)
  | LogTcpSocketFailed
  | LogInvalidAddress
  | LogConnectFailed
  | LogConnected
  | LogRegistrationSendFailed
  | LogStarted (campus_name : string) (local_udp_port : Z)
  | LogHelp
  | LogPrompt (campus_name : string)
  | LogSendFailed
  | LogShutdown (campus_name : string).

Inductive sock_kind := Stream | Datagram.

Inductive io :=
  | SocketCall (kind : sock_kind) (result : Z)   (* socket(AF_INET, kind, 0) *)
  | SetReuseAddr (fd : Z)
  | Bind (fd : Z) (port : Z)                     (* bind to INADDR_ANY:port *)
  | Connect (fd : Z) (addr : sockaddr_in)
  | Send (fd : Z) (msg : string)
  | Shutdown (fd : Z)                            (* shutdown(fd, SHUT_RDWR) *)
  | Close (fd : Z)
  | StartReceiver (tcp_fd udp_fd : Z)            (* std::thread(receive_handler, ..) *)
  | ClearRunning                                 (* running = false *)
  | Print (l : log).

(** What the operating system answers during start-up. *)
Record Os := {
  udp_socket : Z;      (* socket(AF_INET, SOCK_DGRAM, 0) *)
  bind_ok : bool;      (* bind(...) >= 0 *)
  tcp_socket : Z;      (* socket(AF_INET, SOCK_STREAM, 0) *)
  pton_ok : bool;      (* inet_pton(...) > 0 *)
  connect_ok : bool;   (* connect(...) >= 0 *)
  send_ok : bool       (* send(...) >= 0, for the registration message *)
}.

(** The first payload: [name + ":" + std::to_string(udp_port)]. *)
Definition registration_msg (name : string) (udp_port : Z) : string :=
  name +:+ ":" +:+ ToString.to_string udp_port.

(** [setup_udp_listener]: the descriptor, or -1, and what was done. *)
Definition setup_udp_listener (os : Os) (port_num : Z) : Z * list io :=
  let sock := udp_socket os in
  if (sock <? 0)%Z then
    (-1, [SocketCall Datagram sock; Print LogUdpSocketFailed])%Z
  else if bind_ok os then
    (sock, [SocketCall Datagram sock; SetReuseAddr sock;
            Bind sock (htons port_num); Print (LogUdpBound port_num)])
  else
    (-1, [SocketCall Datagram sock; SetReuseAddr sock;
          Bind sock (htons port_num); Print LogUdpBindFailed; Close sock])%Z.

(** [setup_tcp_connection]: the descriptor, or -1, and what was done. *)
Definition setup_tcp_connection (os : Os) (name : string) (udp_port : Z)
    : Z * list io :=
  let sock := tcp_socket os in
  let server_addr := {| sin_addr := SERVER_IP; sin_port := htons TCP_PORT |} in
  if (sock <? 0)%Z then
    (-1, [SocketCall Stream sock; Print LogTcpSocketFailed])%Z
  else if negb (pton_ok os) then
    (-1, [SocketCall Stream sock; Print LogInvalidAddress; Close sock])%Z
  else if negb (connect_ok os) then
    (-1, [SocketCall Stream sock; Connect sock server_addr;
          Print LogConnectFailed; Close sock])%Z
  else if negb (send_ok os) then
    (-1, [SocketCall Stream sock; Connect sock server_addr; Print LogConnected;
          Send sock (registration_msg name udp_port);
          Print LogRegistrationSendFailed; Close sock])%Z
  else
    (sock, [SocketCall Stream sock; Connect sock server_addr; Print LogConnected;
            Send sock (registration_msg name udp_port)]).

(** What [main] holds when it enters its input loop. *)
Record session := {
  tcp_sock : Z;
  udp_sock : Z;
  campus_name : string;
  local_udp_port : Z
}.

(** [main] up to the input loop, on [argv] (the program name first):
    the session it starts, or the exit status, and what was done. *)
Definition startup (os : Os) (argv : list string) : (session + Z) * list io :=
  match argv with
  | [_; name; port_arg] =>
      match Stoi.stoi port_arg with
      | None => (inr EXIT_FAILURE, [Print (LogInvalidPort port_arg)])
      | Some port =>
          let '(udp, evs_udp) := setup_udp_listener os port in
          if (udp <? 0)%Z then (inr EXIT_FAILURE, evs_udp)
          else
            let '(tcp, evs_tcp) := setup_tcp_connection os name port in
            if (tcp <? 0)%Z then
              (inr EXIT_FAILURE, (evs_udp ++ evs_tcp ++ [Close udp])%list)
            else
              (inl {| tcp_sock := tcp; udp_sock := udp;
                      campus_name := name; local_udp_port := port |},
               (evs_udp ++ evs_tcp ++
                [Print (LogStarted name port); StartReceiver tcp udp;
                 Print LogHelp])%list)
      end
  | _ =>
      (inr EXIT_FAILURE,
       [Print (LogUsage (match argv with program :: _ => program | [] => "" end))])
  end.

(** The input loop of [main] follows; what [main] does after it (joining
    the receiver thread, closing both sockets) is not modelled.

    One turn of the input loop: the value of [running] read by
    the loop test (the receiver thread may have cleared it), what
    [std::getline] returned ([None] when it failed), and whether the
    [send] of the line succeeded. *)
Record turn := {
  running : bool;
  line : option string;
  sent_ok : bool
}.

(** The input loop: what is done, and whether the loop has ended
    ([false]: every turn is used up and [main] waits for input). *)
Fixpoint input_loop (ses : session) (turns : list turn) : list io * bool :=
  match turns with
  | [] => ([], false)
  | t :: turns' =>
      if negb (running t) then ([], true)
      else
        match line t with
        | None => ([Print (LogPrompt (campus_name ses))], true)
        | Some l =>
            if decide (l = "exit" ∨ l = "quit") then
              ([Print (LogPrompt (campus_name ses)); ClearRunning;
                Shutdown (tcp_sock ses)], true)
            else if decide (l = "") then
              let '(evs, ended) := input_loop ses turns' in
              (Print (LogPrompt (campus_name ses)) :: evs, ended)
            else
              let '(evs, ended) := input_loop ses turns' in
              (Print (LogPrompt (campus_name ses)) :: Send (tcp_sock ses) l ::
                 ((if sent_ok t then [] else [Print LogSendFailed]) ++ evs)%list,
               ended)
        end
  end.

(** The payloads sent in a stretch of client output. *)
Definition sends (l : list io) : list (Z * string) :=
  omap (λ e, match e with Send fd m => Some (fd, m) | _ => None end) l.

(** The lines the loop gets to see while it runs: those read before the
    first turn that ends it. *)
Fixpoint lines_read (turns : list turn) : list string :=
  match turns with
  | [] => []
  | t :: turns' =>
      if negb (running t) then []
      else
        match line t with
        | None => []
        | Some l =>
            if decide (l = "exit" ∨ l = "quit") then [] else l :: lines_read turns'
        end
  end.

End Client.

(** Membership of an event in an explicit list of events. *)
Ltac in_events H :=
  repeat (apply elem_of_cons in H as [H|H]);
  [..|by apply elem_of_nil in H];
  try discriminate H; try (injection H as -> ->).

Ltac events_case :=
  repeat split;
  [ let H := fresh in intros ? ? H; in_events H
  | let H := fresh in
    intros ? ? H ?; in_events H; try lia;
    apply list_elem_of_In; cbn [In];
    repeat (first [left; reflexivity | right]) ].

Ltac norm_out :=
  unfold emit; cbn [active_clients out fst snd];
  rewrite <- ?app_assoc; cbn [app].

(** * Lemmas *)

(** ** Strings *)

Module StrFacts.
Import Str.

Lemma find_app (c : ascii) (a b : string) :
  find c a = None → find c (a +:+ String c b) = Some (String.length a).
Proof.
  induction a as [|x a IH]; simpl.
  - by rewrite Ascii.eqb_refl.
  - destruct (Ascii.eqb x c); [done|].
    destruct (find c a); [done|]. intros _. by rewrite IH.
Qed.

Lemma take_app (a b : string) : take (String.length a) (a +:+ b) = a.
Proof.
  induction a as [|x a IH]; simpl; [by destruct b|]. by rewrite IH.
Qed.

Lemma drop_app (a b : string) (c : ascii) :
  drop (String.length a + 1) (a +:+ String c b) = b.
Proof. induction a as [|x a IH]; simpl; [done|]. exact IH. Qed.

Lemma drop_0 (s : string) : drop 0 s = s.
Proof. by destruct s. Qed.

Lemma find_take (c : ascii) (s : string) (i : nat) :
  find c s = Some i → find c (take i s) = None.
Proof.
  revert i. induction s as [|x s IH]; simpl; intros i; [done|].
  destruct (Ascii.eqb x c) eqn:E.
  - intros [= <-]. done.
  - destruct (find c s) as [j|]; [|done]. intros [= <-]. simpl.
    by rewrite E, (IH j).
Qed.

Lemma find_split (c : ascii) (s : string) (i : nat) :
  find c s = Some i → s = take i s +:+ String c (drop (i + 1) s).
Proof.
  revert i. induction s as [|x s IH]; simpl; intros i; [done|].
  destruct (Ascii.eqb x c) eqn:E.
  - intros [= <-]. apply Ascii.eqb_eq in E. by subst.
  - destruct (find c s) as [j|]; [|done]. intros [= <-].
    change (S j + 1) with (S (j + 1)). simpl.
    change (String x s = String x (take j s +:+ String c (drop (j + 1) s))).
    f_equal. by apply IH.
Qed.

Lemma find_c_str_None (c : ascii) (s : string) :
  find c s = None → find c (c_str s) = None.
Proof.
  induction s as [|x s IH]; simpl; [done|].
  destruct (Ascii.eqb x c) eqn:E; [done|].
  destruct (find c s); [done|]. intros _.
  destruct (Ascii.eqb x zero); [done|]. simpl. by rewrite E, IH.
Qed.

Lemma c_str_nonempty (s : string) :
  c_str s ≠ "" → s ≠ "".
Proof. by destruct s. Qed.

Lemma take_all (n : nat) (s : string) : (String.length s ≤ n)%nat → take n s = s.
Proof.
  revert n. induction s as [|a s IH]; intros [|n] H; simpl in *; try done; try lia.
  f_equal. apply IH. lia.
Qed.

End StrFacts.

Lemma parse_message_app (destination content : string) :
  Str.find ":" destination = None →
  parse_message (destination +:+ ":" +:+ content) = Some (destination, content).
Proof.
  intros H. unfold parse_message.
  change (":" +:+ content) with (String ":" content).
  rewrite (StrFacts.find_app _ _ _ H). simpl.
  unfold Str.substr. rewrite StrFacts.drop_0.
  by rewrite StrFacts.take_app, StrFacts.drop_app.
Qed.

Lemma parse_message_None (full_message : string) :
  parse_message full_message = None ↔ Str.find ":" full_message = None.
Proof. unfold parse_message. destruct (Str.find _ _); naive_solver. Qed.

Lemma parse_message_colon_free (full_message destination content : string) :
  parse_message full_message = Some (destination, content) →
  Str.find ":" destination = None ∧
  full_message = destination +:+ ":" +:+ content.
Proof.
  unfold parse_message. destruct (Str.find _ _) as [i|] eqn:E; [|done].
  simpl. intros [= <- <-]. unfold Str.substr. rewrite StrFacts.drop_0.
  split; [by apply StrFacts.find_take|by apply StrFacts.find_split].
Qed.

Lemma parse_registration_colon_free (buffer name : string) (port : Z) :
  parse_registration buffer = Some (name, port) → Str.find ":" name = None.
Proof.
  unfold parse_registration. destruct (Str.find _ _) as [i|] eqn:E; [|done].
  simpl. destruct (Stoi.stoi _); [|done]. simpl. intros [= <- _].
  unfold Str.substr. rewrite StrFacts.drop_0. by apply StrFacts.find_take.
Qed.

(** ** The server functions, in terms of their output *)

Section server_facts.

Variable net : Net.

Lemma broadcast_loop_spec (message : string) (l : list (string * ClientInfo))
    (success_count fail_count : Z) (s : Server) :
  ∃ (sc fc : Z) (evs : list io),
    broadcast_loop net message l success_count fail_count s
      = (sc, fc, {| active_clients := active_clients s; out := out s ++ evs |})
    ∧ udp_sends evs = map (λ p, (udp_addr p.2, message)) l
    ∧ tcp_sends evs = []
    ∧ Forall (λ e, is_mutex e = false) evs
    ∧ (sc + fc = success_count + fail_count + Z.of_nat (List.length l))%Z
    ∧ fc = (fail_count + Z.of_nat (udp_fail_lines evs))%Z
    ∧ (success_count ≤ sc)%Z.
Proof.
  revert success_count fail_count s.
  induction l as [|[name client] l IH]; intros success_count fail_count s.
  - exists success_count, fail_count, []. simpl. rewrite app_nil_r.
    destruct s; repeat split; try done; cbn; lia.
  - cbn [broadcast_loop sendto].
    destruct (sendto_ok net (out s) (udp_addr client) message).
    + destruct (IH (success_count + 1)%Z fail_count
                  (emit (UdpSend (udp_addr client) message) s))
        as (sc & fc & evs & Hrun & Hudp & Htcp & Hmx & Hsum & Hfc & Hsc).
      exists sc, fc, (UdpSend (udp_addr client) message :: evs).
      rewrite Hrun. norm_out. repeat split; try done.
      * unfold udp_sends in *. cbn. by f_equal.
      * by constructor.
      * cbn [List.length]. lia.
      * lia.
    + destruct (IH success_count (fail_count + 1)%Z
                  (emit (Log (LogUdpFail name))
                     (emit (UdpSend (udp_addr client) message) s)))
        as (sc & fc & evs & Hrun & Hudp & Htcp & Hmx & Hsum & Hfc & Hsc).
      exists sc, fc,
        (UdpSend (udp_addr client) message :: Log (LogUdpFail name) :: evs).
      rewrite Hrun. norm_out. repeat split; try done.
      * unfold udp_sends in *. cbn. by f_equal.
      * by repeat constructor.
      * cbn [List.length]. lia.
      * unfold udp_fail_lines in *. cbn [List.filter is_udp_fail List.length]. lia.
Qed.

(** [route_tcp_message], case by case. *)
Lemma route_parse (sender_name full_message : string) (s : Server) :
  route_tcp_message net sender_name full_message s =
    match parse_message full_message with
    | None => emit (Log (LogInvalidFormat sender_name full_message)) s
    | Some (destination, content) =>
        let s1 := emit (Log (LogRouting sender_name destination)) s in
        if decide (destination = "BROADCAST") then
          send_udp_broadcast net (broadcast_msg sender_name content) s1
        else
          match active_clients s !! destination with
          | Some it =>
              let msg := routed_msg sender_name content in
              {| active_clients := active_clients s;
                 out := out s ++
                   [Log (LogRouting sender_name destination); Lock;
                    TcpSend (tcp_socket it) msg;
                    Log (if send_ok net
                              (out s ++ [Log (LogRouting sender_name destination); Lock])
                              (tcp_socket it) msg
                         then LogRouted destination else LogSendFailed);
                    Unlock] |}
          | None =>
              {| active_clients := active_clients s;
                 out := out s ++
                   [Log (LogRouting sender_name destination); Lock] ++
                   match active_clients s !! sender_name with
                   | Some sender_it =>
                       [TcpSend (tcp_socket sender_it) (not_active_msg destination)]
                   | None => []
                   end ++
                   [Log (LogNotFound destination); Unlock] |}
          end
    end.
Proof.
  unfold route_tcp_message, parse_message.
  destruct (Str.find ":" full_message) as [colon_pos|]; [|done].
  cbn [mbind option_bind].
  set (destination := Str.substr full_message 0 colon_pos).
  set (content := Str.drop (colon_pos + 1) full_message).
  case_decide; [done|].
  cbn [active_clients emit].
  destruct (active_clients s !! destination) as [it|].
  - unfold send. norm_out.
    unfold routed_msg.
    by destruct (send_ok net _ _ _); norm_out.
  - destruct (active_clients s !! sender_name) as [sender_it|];
      unfold send; by norm_out.
Qed.

(** [handle_client_registration], case by case. *)
Lemma registration_parse (client_sock : Z) (client_addr : sockaddr_in)
    (data : string) (s : Server) :
  data ≠ "" →
  handle_client_registration net client_sock client_addr (Received data) s =
    match parse_registration data with
    | Some (name, udp_port) =>
        (Some name,
         {| active_clients :=
              <[name := entry_of client_sock client_addr name udp_port]>
                (active_clients s);
            out := out s ++
              [Lock; Log (LogRegistration name udp_port);
               TcpSend client_sock (welcome_msg name); Unlock] |})
    | None =>
        (None,
         {| active_clients := active_clients s;
            out := out s ++
              match Str.find ":" (Str.c_str data) with
              | Some _ => [Log LogInvalidPort]
              | None => []
              end ++ [Log LogRegisterFailed; CloseSock client_sock] |})
    end.
Proof.
  intros Hne. destruct data as [|a data]; [done|].
  unfold handle_client_registration, parse_registration.
  destruct (Str.find ":" (Str.c_str (String a data))) as [colon_pos|];
    cbn [mbind option_bind]; [|by norm_out].
  destruct (Stoi.stoi _) as [udp_port|]; cbn [mbind option_bind];
    unfold send; by norm_out.
Qed.

Lemma registration_no_data (client_sock : Z) (client_addr : sockaddr_in)
    (r : recv_result) (s : Server) :
  r = Received "" ∨ r = RecvError →
  handle_client_registration net client_sock client_addr r s =
    (None, {| active_clients := active_clients s;
              out := out s ++ [Log LogRegisterFailed; CloseSock client_sock] |}).
Proof. intros [-> | ->]; unfold handle_client_registration; by norm_out. Qed.

End server_facts.

Lemma in_order_Permutation (m : gmap string ClientInfo) :
  in_order m ≡ₚ map_to_list m.
Proof. apply merge_sort_Permutation. Qed.

Lemma in_order_length (m : gmap string ClientInfo) :
  List.length (in_order m) = size m.
Proof.
  rewrite <- length_map_to_list. apply Permutation_length, in_order_Permutation.
Qed.

Section broadcast_facts.

Variable net : Net.

Lemma send_udp_broadcast_spec (message : string) (s : Server) :
  ∃ (sc fc : Z) (evs : list io),
    broadcast_loop net message (in_order (active_clients s)) 0 0
        (emit (Log (LogBroadcastStart message)) (emit Lock s))
      = (sc, fc,
         {| active_clients := active_clients s;
            out := out s ++ [Lock; Log (LogBroadcastStart message)] ++ evs |})
    ∧ send_udp_broadcast net message s =
        {| active_clients := active_clients s;
           out := out s ++ [Lock; Log (LogBroadcastStart message)] ++ evs ++
                  [Log (LogBroadcastSummary
                          (Z.of_nat (size (active_clients s))) sc);
                   Unlock] |}
    ∧ udp_sends evs =
        map (λ p, (udp_addr p.2, message)) (in_order (active_clients s))
    ∧ tcp_sends evs = []
    ∧ Forall (λ e, is_mutex e = false) evs
    ∧ (sc + fc = Z.of_nat (size (active_clients s)))%Z
    ∧ fc = Z.of_nat (udp_fail_lines evs)
    ∧ (0 ≤ sc)%Z.
Proof.
  destruct (broadcast_loop_spec net message (in_order (active_clients s)) 0 0
              (emit (Log (LogBroadcastStart message)) (emit Lock s)))
    as (sc & fc & evs & Hrun & Hudp & Htcp & Hmx & Hsum & Hfc & Hsc).
  exists sc, fc, evs.
  unfold send_udp_broadcast. cbn [emit active_clients] in *.
  rewrite Hrun. revert Hrun. norm_out. intros Hrun.
  rewrite in_order_length in Hsum.
  repeat split; try done; try lia.
Qed.

Lemma send_udp_broadcast_clients (message : string) (s : Server) :
  active_clients (send_udp_broadcast net message s) = active_clients s.
Proof.
  destruct (send_udp_broadcast_spec message s) as (? & ? & ? & _ & -> & _).
  done.
Qed.

Lemma route_tcp_message_clients (sender_name full_message : string) (s : Server) :
  active_clients (route_tcp_message net sender_name full_message s)
    = active_clients s.
Proof.
  rewrite route_parse.
  destruct (parse_message full_message) as [[destination content]|]; [|done].
  cbv zeta. case_decide.
  - by rewrite send_udp_broadcast_clients.
  - by destruct (active_clients s !! destination).
Qed.

Lemma handle_server_input_clients (line : string) (s : Server) :
  active_clients (handle_server_input net line s).2 = active_clients s.
Proof.
  unfold handle_server_input. repeat case_decide; try done.
  apply send_udp_broadcast_clients.
Qed.

End broadcast_facts.

(** ** A write that raises SIGPIPE *)

(** The handshake up to a welcome message that raises SIGPIPE. *)
Lemma registration_sigpipe_parse (client_sock : Z) (client_addr : sockaddr_in)
    (data : string) (s : Server) :
  handle_client_registration_sigpipe client_sock client_addr data s =
    match parse_registration data with
    | Some (name, udp_port) =>
        Some {| active_clients :=
                  <[name := entry_of client_sock client_addr name udp_port]>
                    (active_clients s);
                out := out s ++
                  [Lock; Log (LogRegistration name udp_port);
                   TcpSend client_sock (welcome_msg name)] |}
    | None => None
    end.
Proof.
  destruct data as [|a data]; [done|].
  unfold handle_client_registration_sigpipe, parse_registration.
  destruct (Str.find ":" (Str.c_str (String a data))) as [colon_pos|];
    cbn [mbind option_bind]; [|done].
  destruct (Stoi.stoi _) as [udp_port|]; cbn [mbind option_bind]; [|done].
  by norm_out.
Qed.

(** The router up to a delivery or a notice that raises SIGPIPE. *)
Lemma route_sigpipe_parse (sender_name full_message : string) (s : Server) :
  route_tcp_message_sigpipe sender_name full_message s =
    match parse_message full_message with
    | None => None
    | Some (destination, content) =>
        if decide (destination = "BROADCAST") then None
        else
          match active_clients s !! destination with
          | Some it =>
              Some {| active_clients := active_clients s;
                      out := out s ++
                        [Log (LogRouting sender_name destination); Lock;
                         TcpSend (tcp_socket it) (routed_msg sender_name content)] |}
          | None =>
              match active_clients s !! sender_name with
              | Some sender_it =>
                  Some {| active_clients := active_clients s;
                          out := out s ++
                            [Log (LogRouting sender_name destination); Lock;
                             TcpSend (tcp_socket sender_it)
                               (not_active_msg destination)] |}
              | None => None
              end
          end
    end.
Proof.
  unfold route_tcp_message_sigpipe, parse_message.
  destruct (Str.find ":" full_message) as [colon_pos|]; [|done].
  cbn [mbind option_bind]. case_decide; [done|].
  cbn [active_clients emit].
  destruct (active_clients s !! _) as [it|]; [by norm_out|].
  destruct (active_clients s !! sender_name) as [sender_it|]; [by norm_out|done].
Qed.

(** ** The process, step by step *)

Section process_facts.

Variable net : Net.

Lemma run_app (evs evs' : list event) (sys : System) :
  run net (evs ++ evs') sys = run net evs' (run net evs sys).
Proof. apply fold_left_app. Qed.

(** A thread in its receive loop that reads data routes it and stays in
    the loop. *)
Lemma step_recv_data (sys : System) (client_sock : Z) (name data : string) :
  halted sys = false →
  threads sys !! client_sock = Some (Registered name) →
  data ≠ "" →
  step net (Recv client_sock (Received data)) sys =
    {| server := route_tcp_message net name (Str.c_str data) (server sys);
       threads := threads sys;
       closing := closing sys;
       halted := false |}.
Proof.
  intros Hh Ht Hne. unfold step. rewrite Hh, Ht.
  by destruct data.
Qed.

(** A thread in its receive loop that reads end of stream or an error
    closes its socket, erases the entry filed under its name and ends. *)
Lemma step_recv_closed (sys : System) (client_sock : Z) (name : string)
    (r : recv_result) :
  halted sys = false →
  threads sys !! client_sock = Some (Registered name) →
  r = Received "" ∨ r = RecvError →
  step net (Recv client_sock r) sys =
    {| server :=
         {| active_clients := delete name (active_clients (server sys));
            out := out (server sys) ++
              [Log (match r with
                    | RecvError => LogRecvFailed
                    | _ => LogDisconnect name
                    end);
               CloseSock client_sock; Lock; Log (LogRemoved name); Unlock] |};
       threads := delete client_sock (threads sys);
       closing := closing sys;
       halted := false |}.
Proof.
  intros Hh Ht [-> | ->]; unfold step; rewrite Hh, Ht;
    unfold handle_client_receive; by norm_out.
Qed.

(** A thread that reads its first payload. *)
Lemma step_recv_first (sys : System) (client_sock : Z)
    (client_addr : sockaddr_in) (data : string) :
  halted sys = false →
  threads sys !! client_sock = Some (Connected client_addr) →
  data ≠ "" →
  step net (Recv client_sock (Received data)) sys =
    match parse_registration data with
    | Some (name, udp_port) =>
        {| server :=
             {| active_clients :=
                  <[name := entry_of client_sock client_addr name udp_port]>
                    (active_clients (server sys));
                out := out (server sys) ++
                  [Lock; Log (LogRegistration name udp_port);
                   TcpSend client_sock (welcome_msg name); Unlock] |};
           threads := <[client_sock := Registered name]> (threads sys);
           closing := closing sys;
           halted := false |}
    | None =>
        {| server :=
             {| active_clients := active_clients (server sys);
                out := out (server sys) ++
                  match Str.find ":" (Str.c_str data) with
                  | Some _ => [Log LogInvalidPort]
                  | None => []
                  end ++ [Log LogRegisterFailed; CloseSock client_sock] |};
           threads := delete client_sock (threads sys);
           closing := closing sys;
           halted := false |}
    end.
Proof.
  intros Hh Ht Hne. unfold step. rewrite Hh, Ht.
  rewrite registration_parse by done.
  by destruct (parse_registration data) as [[name udp_port]|].
Qed.

Lemma step_inv (ev : event) (sys : System) :
  directory_inv sys → directory_inv (step net ev sys).
Proof.
  intros Hinv. pose proof Hinv as [Hname Hcolon]. unfold step.
  destruct (halted sys) eqn:Hh; [done|].
  assert (Hsame : ∀ s ts cl h, active_clients s = active_clients (server sys) →
            directory_inv {| server := s; threads := ts; closing := cl;
                             halted := h |}).
  { intros s ts cl h Heq. split; cbn [server]; rewrite Heq; done. }
  assert (Hdel : ∀ campus l ts cl h, directory_inv
            {| server := {| active_clients :=
                              delete campus (active_clients (server sys));
                            out := l |};
               threads := ts; closing := cl; halted := h |}).
  { intros campus l ts cl h. split; cbn [server active_clients];
      intros name e; rewrite lookup_delete; case_decide; try done;
      [by apply Hname | by apply Hcolon]. }
  assert (Hins : ∀ name client_sock client_addr udp_port l ts cl h,
            Str.find ":" name = None →
            directory_inv
              {| server := {| active_clients :=
                                <[name := entry_of client_sock client_addr
                                            name udp_port]>
                                  (active_clients (server sys));
                              out := l |};
                 threads := ts; closing := cl; halted := h |}).
  { intros name client_sock client_addr udp_port l ts cl h Hc.
    split; cbn [server active_clients]; intros name' e; rewrite lookup_insert;
      case_decide; subst.
    - by intros [= <-].
    - by apply Hname.
    - done.
    - by apply Hcolon. }
  destruct ev as [client_sock client_addr | client_sock r | line
                 | client_sock r | campus | client_sock data].
  - (* accept *)
    destruct (client_sock <? 0)%Z; [by apply Hsame|].
    destruct (threads sys !! client_sock); [done|]. by apply Hsame.
  - (* recv *)
    destruct (threads sys !! client_sock) as [[client_addr|campus]|]; [| |done].
    + destruct (decide (r = Received "" ∨ r = RecvError)) as [Hr|Hr].
      * rewrite registration_no_data by done. by apply Hsame.
      * destruct r as [data|]; [|by destruct Hr; right].
        rewrite registration_parse by (intros ->; apply Hr; by left).
        destruct (parse_registration data) as [[name udp_port]|] eqn:Hp.
        -- apply Hins. by eapply parse_registration_colon_free.
        -- by apply Hsame.
    + unfold handle_client_receive.
      destruct r as [[|a data]|]; [apply Hdel | | apply Hdel].
      apply Hsame. apply route_tcp_message_clients.
  - (* console *)
    pose proof (handle_server_input_clients net line (server sys)) as Hc.
    destruct (handle_server_input net line (server sys)) as [running s].
    by apply Hsame.
  - (* hangup *)
    destruct (threads sys !! client_sock) as [[client_addr|campus]|]; try done.
    destruct (is_hangup r); [|done]. by apply Hsame.
  - (* unregister *)
    destruct (remove_first campus (closing sys)); [|done].
    unfold handle_client_unregister. apply Hdel.
  - (* sigpipe *)
    destruct (threads sys !! client_sock) as [[client_addr|campus]|]; [| |done].
    + rewrite registration_sigpipe_parse.
      destruct (parse_registration data) as [[name udp_port]|] eqn:Hp; [|done].
      apply Hins. by eapply parse_registration_colon_free.
    + destruct data as [|a data]; [done|].
      rewrite route_sigpipe_parse.
      destruct (parse_message _) as [[destination content]|]; [|done].
      case_decide; [done|].
      destruct (active_clients (server sys) !! destination); [by apply Hsame|].
      destruct (active_clients (server sys) !! campus); [by apply Hsame|done].
Qed.

Lemma init_inv : directory_inv init.
Proof. split; cbn; intros name e; by rewrite lookup_empty. Qed.

Lemma run_inv (evs : list event) (sys : System) :
  directory_inv sys → directory_inv (run net evs sys).
Proof.
  revert sys. induction evs as [|ev evs IH]; intros sys H; [done|].
  cbn. apply IH. by apply step_inv.
Qed.

End process_facts.

(** ** [std::stoi] on a run of digits *)

Lemma stoi_leading_digit (c : ascii) (r : string) :
  Stoi.isdigit c = true →
  Stoi.stoi (String c r) =
    let v := Stoi.digits 0 (String c r) in
    if (Stoi.INT_MIN <=? v)%Z && (v <=? Stoi.INT_MAX)%Z then Some v else None.
Proof.
  intros H.
  destruct c as [[] [] [] [] [] [] [] []]; cbv in H; try discriminate H;
    reflexivity.
Qed.

Lemma digits_lower_bound (s : string) (acc : Z) :
  (0 ≤ acc)%Z → (acc ≤ Stoi.digits acc s)%Z.
Proof.
  revert acc. induction s as [|c r IH]; intros acc Hacc; cbn; [lia|].
  destruct (Stoi.isdigit c) eqn:Hd; [|lia].
  assert (0 ≤ Stoi.digit_value c)%Z.
  { unfold Stoi.isdigit, Stoi.digit_value in *.
    apply andb_prop in Hd as [H1%Nat.leb_le _]. lia. }
  specialize (IH (10 * acc + Stoi.digit_value c)%Z). lia.
Qed.

(** A port segment the spec calls valid, and that fits an [int], is read
    by [std::stoi] as its value. *)
Lemma stoi_valid_positive_integer (s : string) :
  valid_positive_integer s = true →
  (Stoi.digits 0 s ≤ Stoi.INT_MAX)%Z →
  Stoi.stoi s = Some (Stoi.digits 0 s).
Proof.
  unfold valid_positive_integer. intros H Hmax.
  apply andb_prop in H as [H Hpos]. apply andb_prop in H as [_ Hall].
  destruct s as [|c r]; [done|].
  cbn [all_digits] in Hall. apply andb_prop in Hall as [Hc _].
  rewrite stoi_leading_digit by done. cbv zeta.
  apply Z.ltb_lt in Hpos.
  replace (Stoi.INT_MIN <=? _)%Z with true
    by (symmetry; apply Z.leb_le; unfold Stoi.INT_MIN; lia).
  replace (_ <=? Stoi.INT_MAX)%Z with true by (symmetry; by apply Z.leb_le).
  done.
Qed.

Lemma parse_registration_nonempty (data name : string) (udp_port : Z) :
  parse_registration data = Some (name, udp_port) → data ≠ "".
Proof. by intros H ->. Qed.

(** * Directed routing *)

(** C1, as stated, fails when the destination is registered under the
    name of the broadcast keyword: with [Lahore] on socket 4 and
    [BROADCAST] on socket 5, the payload [BROADCAST:hello] read from
    [Lahore] writes nothing to socket 5; the only stream writes ever made
    are the two welcome messages. *)
Lemma route_to_identity_named_broadcast :
  let sys := run ideal_net broadcast_named init in
  let sys' := step ideal_net (Recv 4 (Received "BROADCAST:hello")) sys in
  lookup_client "Lahore" sys = Some (entry_of 4 (peer 1) "Lahore" 9001)
  ∧ lookup_client "BROADCAST" sys = Some (entry_of 5 (peer 2) "BROADCAST" 9002)
  ∧ tcp_sends (out (server sys')) =
      [(4%Z, welcome_msg "Lahore"); (5%Z, welcome_msg "BROADCAST")].
Proof. vm_compute. done. Qed.

(** C1 (amended): in every state the process can reach, for every sender
    [A], every registered identity [B] other than the broadcast keyword
    and every content, routing [B:<content>] for [A] finds [B] and writes
    [FROM <A>: <content>] to the socket held in [B]'s entry; this is the
    only stream write of the call, and the directory is unchanged. *)
Theorem route_delivers_to_destination (net : Net) (evs : list event)
    (A B content : string) (e : ClientInfo) :
  let s := server (run net evs init) in
  active_clients s !! B = Some e →
  B ≠ "BROADCAST" →
  route_tcp_message net A (B +:+ ":" +:+ content) s =
    {| active_clients := active_clients s;
       out := out s ++
         [Log (LogRouting A B); Lock;
          TcpSend (tcp_socket e) ("FROM " +:+ A +:+ ": " +:+ content);
          Log (if send_ok net (out s ++ [Log (LogRouting A B); Lock])
                    (tcp_socket e) ("FROM " +:+ A +:+ ": " +:+ content)
               then LogRouted B else LogSendFailed);
          Unlock] |}.
Proof.
  intros s HB Hne.
  pose proof (run_inv net evs init init_inv) as Hinv. fold s in Hinv.
  rewrite route_parse, parse_message_app by (by eapply (inv_colon _ Hinv)).
  cbv zeta. rewrite decide_False by done. by rewrite HB.
Qed.

(** With [Lahore] and [Karachi] registered, [Karachi:hello] from [Lahore]
    adds one stream write, on socket 5. *)
Lemma route_delivers_to_destination_witness :
  tcp_sends (out (route_tcp_message ideal_net "Lahore" ("Karachi" +:+ ":" +:+ "hello")
                    (server (run ideal_net two_campuses init))))
  = [(4%Z, welcome_msg "Lahore"); (5%Z, welcome_msg "Karachi");
     (5%Z, "FROM Lahore: hello")].
Proof.
  assert (H1 : active_clients (server (run ideal_net two_campuses init)) !! "Karachi"
               = Some (entry_of 5 (peer 2) "Karachi" 9002)) by (vm_compute; reflexivity).
  assert (H2 : "Karachi" ≠ "BROADCAST") by discriminate.
  rewrite (route_delivers_to_destination ideal_net two_campuses
             "Lahore" "Karachi" "hello" _ H1 H2).
  vm_compute. reflexivity.
Defined.

(** * Registration *)

(** C2, as stated, fails: the port segment [-5] is not a positive
    integer, yet the payload [Lahore:-5] registers [Lahore], with
    datagram port [htons(-5)], that is 65531. *)
Lemma registration_accepts_negative_port :
  Str.find ":" "Lahore:-5" = Some 6
  ∧ valid_positive_integer (Str.drop 7 "Lahore:-5") = false
  ∧ handle_client_registration ideal_net 4 (peer 1) (Received "Lahore:-5")
      (server init) =
    (Some "Lahore",
     {| active_clients :=
          {[ "Lahore" :=
               {| tcp_socket := 4; campus_name := "Lahore";
                  udp_addr := {| sin_addr := 2130706433; sin_port := 65531 |} |} ]};
        out := [Lock; Log (LogRegistration "Lahore" (-5));
                TcpSend 4 "SERVER: Welcome, Lahore! TCP and UDP services active.";
                Unlock] |}).
Proof. vm_compute. done. Qed.

(** C2 (amended): the handshake on a first payload (read up to its first
    NUL byte) fails exactly when the payload has no [':'] or [std::stoi]
    throws on the port segment; then nothing is written to any stream, the
    directory is unchanged and the last thing done is to close the socket.
    Otherwise the entry is stored under the text before the first [':']
    and the welcome message is written to the socket.  A port segment that
    is a positive decimal integer no larger than [INT_MAX] never makes
    [std::stoi] throw. *)
Theorem registration_fails_exactly_when (net : Net) (client_sock : Z)
    (client_addr : sockaddr_in) (data : string) (s : Server) :
  data ≠ "" →
  let initial_msg := Str.c_str data in
  let result :=
    handle_client_registration net client_sock client_addr (Received data) s in
  let rejected :=
    Str.find ":" initial_msg = None
    ∨ ∃ colon_pos, Str.find ":" initial_msg = Some colon_pos
        ∧ Stoi.stoi (Str.drop (colon_pos + 1) initial_msg) = None in
  (rejected →
     result.1 = None
     ∧ active_clients result.2 = active_clients s
     ∧ tcp_sends (out result.2) = tcp_sends (out s)
     ∧ last (out result.2) = Some (CloseSock client_sock))
  ∧ (¬ rejected →
     ∃ colon_pos udp_port,
       Str.find ":" initial_msg = Some colon_pos
       ∧ Stoi.stoi (Str.drop (colon_pos + 1) initial_msg) = Some udp_port
       ∧ let name := Str.substr initial_msg 0 colon_pos in
         result =
           (Some name,
            {| active_clients :=
                 <[name := entry_of client_sock client_addr name udp_port]>
                   (active_clients s);
               out := out s ++
                 [Lock; Log (LogRegistration name udp_port);
                  TcpSend client_sock
                    ("SERVER: Welcome, " +:+ name +:+ "! TCP and UDP services active.");
                  Unlock] |}))
  ∧ (∀ colon_pos,
       Str.find ":" initial_msg = Some colon_pos →
       valid_positive_integer (Str.drop (colon_pos + 1) initial_msg) = true →
       (Stoi.digits 0 (Str.drop (colon_pos + 1) initial_msg) ≤ Stoi.INT_MAX)%Z →
       ¬ rejected).
Proof.
  intros Hne initial_msg result rejected.
  subst result. rewrite registration_parse by done.
  unfold parse_registration. fold initial_msg. subst rejected.
  destruct (Str.find ":" initial_msg) as [colon_pos|] eqn:Hfind;
    cbn [mbind option_bind].
  - destruct (Stoi.stoi (Str.drop (colon_pos + 1) initial_msg))
      as [udp_port|] eqn:Hstoi; cbn [mbind option_bind].
    + split; [|split].
      * intros [?|(i & [= <-] & ?)]; congruence.
      * intros _. by exists colon_pos, udp_port.
      * intros i [= <-] _ _ [?|(j & [= <-] & ?)]; congruence.
    + split; [|split].
      * intros _. cbn [fst snd active_clients out].
        repeat split; try done.
        -- unfold tcp_sends. rewrite omap_app. cbn. by rewrite app_nil_r.
        -- change (last (out s ++ [Log LogInvalidPort; Log LogRegisterFailed]
                           ++ [CloseSock client_sock]) = Some (CloseSock client_sock)).
           by rewrite app_assoc, last_snoc.
      * intros H. destruct H. right. by exists colon_pos.
      * intros i [= <-] Hv Hmax.
        rewrite stoi_valid_positive_integer in Hstoi by done. done.
  - split; [|split].
    + intros _. cbn [fst snd active_clients out].
      repeat split; try done.
      * unfold tcp_sends. rewrite omap_app. cbn. by rewrite app_nil_r.
      * change (last (out s ++ [Log LogRegisterFailed] ++ [CloseSock client_sock])
                = Some (CloseSock client_sock)).
        by rewrite app_assoc, last_snoc.
    + intros H. destruct H. by left.
    + intros i [=].
Qed.

(** The payload [Lahore:port] is rejected. *)
Lemma registration_fails_exactly_when_witness :
  (handle_client_registration ideal_net 4 (peer 1) (Received "Lahore:port")
     (server init)).1 = None.
Proof.
  assert (Hne : "Lahore:port" ≠ "") by discriminate.
  destruct (registration_fails_exactly_when ideal_net 4 (peer 1) "Lahore:port"
              (server init) Hne) as [Hrej _].
  apply Hrej. right. exists 6. split; reflexivity.
Defined.

(** * Directory and live sessions *)

(** C3: what the code does when two connections register one name and
    the first one disconnects.  The thread on socket 5 is still in its
    receive loop as [Lahore], but the end of stream read on socket 4
    erased the entry filed under [Lahore], which was the one of socket
    5: a live session is left without an entry. *)
Theorem disconnect_erases_entry_of_live_session :
  let before := run ideal_net same_name_twice init in
  let after := step ideal_net (Recv 4 (Received "")) before in
  lookup_client "Lahore" before = Some (entry_of 5 (peer 2) "Lahore" 9002)
  ∧ threads after !! 5%Z = Some (Registered "Lahore")
  ∧ lookup_client "Lahore" after = None.
Proof. vm_compute. done. Qed.

(** * Duplicate registration *)

(** C4: what the code does when a second connection registers a name
    that is taken.  The registration is not rejected (the entry of
    [Lahore] now holds socket 5), and the socket of the superseded
    session is not closed: the step closes nothing and writes only the
    welcome message, and the thread on socket 4 stays in its receive loop
    with no entry of its own. *)
Theorem duplicate_registration_keeps_old_socket :
  let before :=
    run ideal_net [Accept 4 (peer 1); Recv 4 (Received "Lahore:9001");
                   Accept 5 (peer 2)] init in
  let after := step ideal_net (Recv 5 (Received "Lahore:9002")) before in
  lookup_client "Lahore" before = Some (entry_of 4 (peer 1) "Lahore" 9001)
  ∧ lookup_client "Lahore" after = Some (entry_of 5 (peer 2) "Lahore" 9002)
  ∧ out (server after) =
      (out (server before) ++
        [Lock; Log (LogRegistration "Lahore" 9002);
         TcpSend 5 (welcome_msg "Lahore"); Unlock])%list
  ∧ closes (out (server after)) = []
  ∧ threads after !! 4%Z = Some (Registered "Lahore").
Proof. vm_compute. done. Qed.

(** The same for every registration over an entry: the entry is replaced,
    the others are left alone, and the output is the welcome message and
    nothing else. *)
Lemma registration_over_existing_entry (net : Net) (sys : System)
    (client_sock : Z) (client_addr : sockaddr_in) (data name : string)
    (udp_port : Z) (old : ClientInfo) :
  let sys' := step net (Recv client_sock (Received data)) sys in
  halted sys = false →
  threads sys !! client_sock = Some (Connected client_addr) →
  parse_registration data = Some (name, udp_port) →
  lookup_client name sys = Some old →
  lookup_client name sys' = Some (entry_of client_sock client_addr name udp_port)
  ∧ (∀ other, other ≠ name → lookup_client other sys' = lookup_client other sys)
  ∧ out (server sys') =
      (out (server sys) ++
        [Lock; Log (LogRegistration name udp_port);
         TcpSend client_sock (welcome_msg name); Unlock])%list.
Proof.
  intros sys' Hh Ht Hp Hold. subst sys'.
  pose proof (parse_registration_nonempty _ _ _ Hp) as Hne.
  rewrite step_recv_first with (client_addr := client_addr) by done.
  rewrite Hp. unfold lookup_client in *. cbn [server threads active_clients out].
  repeat split; try done.
  - by rewrite lookup_insert_eq.
  - intros other Hother. by rewrite lookup_insert_ne.
Qed.

(** * Fan-out *)

Lemma tcp_sends_app (l l' : list io) :
  tcp_sends (l ++ l') = (tcp_sends l ++ tcp_sends l')%list.
Proof. apply omap_app. Qed.

Lemma udp_sends_app (l l' : list io) :
  udp_sends (l ++ l') = (udp_sends l ++ udp_sends l')%list.
Proof. apply omap_app. Qed.

(** The counters of the loop against the outcomes of its datagrams. *)
Lemma broadcast_loop_outcomes (net : Net) (message : string)
    (l : list (string * ClientInfo)) (success_count fail_count : Z) (s : Server) :
  ∃ (sc fc : Z) (evs : list io),
    broadcast_loop net message l success_count fail_count s
      = (sc, fc, {| active_clients := active_clients s; out := out s ++ evs |})
    ∧ List.length (udp_outcomes net (out s) evs) = List.length l
    ∧ sc = (success_count + count_true (udp_outcomes net (out s) evs))%Z
    ∧ fc = (fail_count + count_false (udp_outcomes net (out s) evs))%Z
    ∧ udp_fail_names evs = failed_entries l (udp_outcomes net (out s) evs).
Proof.
  revert success_count fail_count s.
  induction l as [|[name client] l IH]; intros success_count fail_count s.
  - exists success_count, fail_count, []. rewrite app_nil_r.
    destruct s. repeat split; try done; unfold count_true, count_false; cbn; lia.
  - cbn [broadcast_loop sendto].
    destruct (sendto_ok net (out s) (udp_addr client) message) eqn:Hok.
    + destruct (IH (success_count + 1)%Z fail_count
                  (emit (UdpSend (udp_addr client) message) s))
        as (sc & fc & evs & -> & Hlen & Hsc & Hfc & Hnames).
      exists sc, fc, (UdpSend (udp_addr client) message :: evs).
      cbn [emit out active_clients] in *. rewrite <- app_assoc.
      cbn [udp_outcomes app]. rewrite Hok.
      unfold count_true, count_false, failed_entries in *.
      cbn [List.filter List.length combine negb snd map].
      repeat split; try done; try lia; try (by rewrite Hlen).
    + destruct (IH success_count (fail_count + 1)%Z
                  (emit (Log (LogUdpFail name))
                     (emit (UdpSend (udp_addr client) message) s)))
        as (sc & fc & evs & -> & Hlen & Hsc & Hfc & Hnames).
      exists sc, fc,
        (UdpSend (udp_addr client) message :: Log (LogUdpFail name) :: evs).
      cbn [emit out active_clients] in *. rewrite <- !app_assoc.
      cbn [udp_outcomes app]. rewrite Hok.
      unfold count_true, count_false, failed_entries in *.
      cbn [List.filter List.length combine negb snd fst map].
      repeat split; try done; try lia; try (by rewrite Hlen).
      all: unfold udp_fail_names in *; cbn; by rewrite <- Hnames.
Qed.



(** * Malformed and unroutable messages *)

Lemma c_str_data_nonempty (data payload : string) :
  Str.c_str data = payload → payload ≠ "" → data ≠ "".
Proof. intros <- H. by apply StrFacts.c_str_nonempty. Qed.

Lemma app_colon_nonempty (a b : string) : a +:+ ":" +:+ b ≠ "".
Proof. by destruct a. Qed.

(** C6: a payload without [':'] read from a registered sender is dropped:
    one line is logged, nothing is written to a stream or sent as a
    datagram, the directory and the threads are as before and the sender's
    thread is still in its receive loop.  The next payload of that sender
    is routed as usual: if it is [B:<content>] for an entry [B], the one
    stream write that follows is [FROM <sender>: <content>] on [B]'s
    socket. *)
Theorem malformed_message_dropped (net : Net) (sys : System) (client_sock : Z)
    (sender data B content : string) (e : ClientInfo) :
  let sys' := step net (Recv client_sock (Received data)) sys in
  let next := B +:+ ":" +:+ content in
  let sys'' := step net (Recv client_sock (Received next)) sys' in
  halted sys = false →
  threads sys !! client_sock = Some (Registered sender) →
  data ≠ "" →
  Str.find ":" data = None →
  lookup_client B sys = Some e →
  Str.find ":" B = None →
  B ≠ "BROADCAST" →
  Str.c_str next = next →
  sys' = {| server :=
              {| active_clients := active_clients (server sys);
                 out := out (server sys) ++
                        [Log (LogInvalidFormat sender (Str.c_str data))] |};
            threads := threads sys;
            closing := closing sys;
            halted := false |}
  ∧ tcp_sends (out (server sys')) = tcp_sends (out (server sys))
  ∧ udp_sends (out (server sys')) = udp_sends (out (server sys))
  ∧ threads sys' !! client_sock = Some (Registered sender)
  ∧ tcp_sends (out (server sys'')) =
      (tcp_sends (out (server sys)) ++
         [(tcp_socket e, "FROM " +:+ sender +:+ ": " +:+ content)])%list
  ∧ threads sys'' = threads sys.
Proof.
  intros sys' next sys'' Hh Ht Hne Hfind HB HBc HBb Hnext.
  assert (Hsys' : sys' =
    {| server :=
         {| active_clients := active_clients (server sys);
            out := out (server sys) ++
                   [Log (LogInvalidFormat sender (Str.c_str data))] |};
       threads := threads sys; closing := closing sys; halted := false |}).
  { subst sys'. rewrite step_recv_data with (name := sender) by done.
    rewrite route_parse.
    apply (StrFacts.find_c_str_None ":") in Hfind.
    apply parse_message_None in Hfind. by rewrite Hfind. }
  split; [done|].
  assert (Hsys'' : sys'' =
    {| server :=
         {| active_clients := active_clients (server sys);
            out := out (server sys) ++
                   [Log (LogInvalidFormat sender (Str.c_str data));
                    Log (LogRouting sender B); Lock;
                    TcpSend (tcp_socket e) (routed_msg sender content);
                    Log (if send_ok net
                              (out (server sys) ++
                               [Log (LogInvalidFormat sender (Str.c_str data));
                                Log (LogRouting sender B); Lock])
                              (tcp_socket e) (routed_msg sender content)
                         then LogRouted B else LogSendFailed);
                    Unlock] |};
       threads := threads sys; closing := closing sys; halted := false |}).
  { subst sys''. rewrite Hsys'.
    rewrite step_recv_data with (name := sender)
      by (done || apply app_colon_nonempty).
    rewrite Hnext. unfold next.
    rewrite route_parse, parse_message_app by done. cbv zeta.
    rewrite decide_False by done. cbn [active_clients server out threads].
    unfold lookup_client in HB. rewrite HB.
    by rewrite <- !app_assoc. }
  rewrite Hsys'', Hsys'. cbn [server threads out].
  rewrite !tcp_sends_app, udp_sends_app. cbn [tcp_sends udp_sends omap list_omap].
  rewrite !app_nil_r. repeat split; done.
Qed.

(** After a payload without separator, [Karachi:hello] from [Lahore] is
    still delivered on socket 5. *)
Lemma malformed_message_dropped_witness :
  tcp_sends (out (server
    (run ideal_net [Recv 4 (Received "no separator here");
                    Recv 4 (Received ("Karachi" +:+ ":" +:+ "hello"))]
       (run ideal_net two_campuses init))))
  = [(4%Z, welcome_msg "Lahore"); (5%Z, welcome_msg "Karachi");
     (5%Z, "FROM Lahore: hello")].
Proof.
  refine (eq_trans
    (proj1 (proj2 (proj2 (proj2 (proj2
      (malformed_message_dropped ideal_net (run ideal_net two_campuses init) 4
         "Lahore" "no separator here" "Karachi" "hello"
         (entry_of 5 (peer 2) "Karachi" 9002) _ _ _ _ _ _ _ _)))))) _);
    try (vm_compute; reflexivity); discriminate.
Defined.

(** Where the notice goes.  A payload [Z:<content>] read on
    [client_sock], whose thread serves the name [A], where [Z] is not the
    broadcast keyword and has no entry: the notice that [Z] is not active
    is written to the socket of the entry filed under [A] when there is
    one, whichever connection that entry belongs to, and nothing is
    written when there is none; nothing else is written or sent, the
    directory is unchanged and the thread stays in its receive loop. *)
Lemma unknown_destination_notice (net : Net) (sys : System) (client_sock : Z)
    (A Z content data : string) :
  let sys' := step net (Recv client_sock (Received data)) sys in
  halted sys = false →
  threads sys !! client_sock = Some (Registered A) →
  Str.c_str data = Z +:+ ":" +:+ content →
  Str.find ":" Z = None →
  Z ≠ "BROADCAST" →
  lookup_client Z sys = None →
  server sys' =
    {| active_clients := active_clients (server sys);
       out := out (server sys) ++
         [Log (LogRouting A Z); Lock] ++
         match lookup_client A sys with
         | Some it =>
             [TcpSend (tcp_socket it)
                ("SERVER: Error: Campus '" +:+ Z +:+ "' is not currently active.")]
         | None => []
         end ++
         [Log (LogNotFound Z); Unlock] |}
  ∧ threads sys' = threads sys
  ∧ halted sys' = false.
Proof.
  intros sys' Hh Ht Hdata HZc HZb HZ. subst sys'.
  rewrite step_recv_data with (name := A);
    [|done|done|by eapply c_str_data_nonempty, app_colon_nonempty].
  rewrite Hdata, route_parse, parse_message_app by done. cbv zeta.
  rewrite decide_False by done.
  unfold lookup_client in *. rewrite HZ. done.
Qed.

(** [Multan] has no entry: with [Lahore] registered once, on socket 4,
    the notice is written to socket 4. *)
Lemma unknown_destination_notice_two_campuses :
  tcp_sends (out (server
    (step ideal_net (Recv 4 (Received "Multan:hi"))
       (run ideal_net two_campuses init))))
  = [(4%Z, welcome_msg "Lahore"); (5%Z, welcome_msg "Karachi");
     (4%Z, not_active_msg "Multan")].
Proof.
  assert (H : Str.c_str "Multan:hi" = "Multan" +:+ ":" +:+ "hi") by reflexivity.
  assert (Hb : "Multan" ≠ "BROADCAST") by discriminate.
  destruct (unknown_destination_notice ideal_net (run ideal_net two_campuses init)
              4 "Lahore" "Multan" "hi" "Multan:hi"
              eq_refl eq_refl H eq_refl Hb eq_refl) as [-> _].
  vm_compute. reflexivity.
Qed.

(** C7: what the code does when the sender's name has been registered a
    second time.  Sockets 4 and 5 both serve [Lahore] and the entry of
    [Lahore] holds socket 5.  The payload [Multan:hi] is read on socket 4
    and [Multan] has no entry: the notice is not written to the sender's
    own stream, socket 4, but to socket 5, the stream of the other
    connection.  [route_tcp_message] is given the sender's name, not its
    socket, and looks the socket up in the directory. *)
Theorem notice_written_to_other_stream :
  let before := run ideal_net same_name_twice init in
  let after := step ideal_net (Recv 4 (Received "Multan:hi")) before in
  threads before !! 4%Z = Some (Registered "Lahore")
  ∧ threads before !! 5%Z = Some (Registered "Lahore")
  ∧ lookup_client "Multan" before = None
  ∧ lookup_client "Lahore" before = Some (entry_of 5 (peer 2) "Lahore" 9002)
  ∧ out (server after) =
      (out (server before) ++
        [Log (LogRouting "Lahore" "Multan"); Lock;
         TcpSend 5 (not_active_msg "Multan");
         Log (LogNotFound "Multan"); Unlock])%list
  ∧ tcp_sends (out (server after)) =
      (tcp_sends (out (server before)) ++ [(5%Z, not_active_msg "Multan")])%list
  ∧ threads after = threads before.
Proof. vm_compute. done. Qed.

(** * Locking *)

Lemma io_all_locked_held (evs rest : list io) :
  Forall (λ e, is_mutex e = false) evs →
  io_all_locked true (evs ++ rest) = io_all_locked true rest.
Proof.
  induction 1 as [|e evs He _ IH]; [done|].
  destruct e; try discriminate He; exact IH.
Qed.

(** C8, as stated, fails: the mutex is held across the datagrams of a
    broadcast, across the delivery of a directed message and across the
    notice for an unknown destination. *)
Lemma network_io_while_locked :
  let s := quiet (server (run ideal_net two_campuses init)) in
  out (send_udp_broadcast ideal_net "hi" s) =
    [Lock; Log (LogBroadcastStart "hi");
     UdpSend {| sin_addr := 2130706433; sin_port := 9002 |} "hi";
     UdpSend {| sin_addr := 2130706433; sin_port := 9001 |} "hi";
     Log (LogBroadcastSummary 2 2); Unlock]
  ∧ io_while_locked false (out (send_udp_broadcast ideal_net "hi" s)) = true
  ∧ out (route_tcp_message ideal_net "Lahore" "Karachi:hello" s) =
      [Log (LogRouting "Lahore" "Karachi"); Lock;
       TcpSend 5 "FROM Lahore: hello"; Log (LogRouted "Karachi"); Unlock]
  ∧ io_while_locked false
      (out (route_tcp_message ideal_net "Lahore" "Karachi:hello" s)) = true
  ∧ out (route_tcp_message ideal_net "Lahore" "Multan:hello" s) =
      [Log (LogRouting "Lahore" "Multan"); Lock;
       TcpSend 4 "SERVER: Error: Campus 'Multan' is not currently active.";
       Log (LogNotFound "Multan"); Unlock]
  ∧ io_while_locked false
      (out (route_tcp_message ideal_net "Lahore" "Multan:hello" s)) = true.
Proof. vm_compute. done. Qed.

(** C8 (amended): every socket write of the server is issued with the
    directory mutex held: [send_udp_broadcast] takes the mutex first and
    releases it after the last datagram and the summary;
    [route_tcp_message] takes it before the lookup and releases it after
    the delivery or the notice; the handshake writes its welcome message
    before releasing it.  The mutex is free again when each returns. *)
Theorem network_io_under_lock (net : Net) (s : Server) :
  (∀ message, ∃ evs,
     out (send_udp_broadcast net message s) = (out s ++ evs)%list
     ∧ io_all_locked false evs = true
     ∧ List.length (udp_sends evs) = size (active_clients s))
  ∧ (∀ sender_name full_message, ∃ evs,
     out (route_tcp_message net sender_name full_message s) = (out s ++ evs)%list
     ∧ io_all_locked false evs = true)
  ∧ (∀ client_sock client_addr r, ∃ evs,
     out (handle_client_registration net client_sock client_addr r s).2
       = (out s ++ evs)%list
     ∧ io_all_locked false evs = true).
Proof.
  assert (Hb : ∀ message s, ∃ evs,
     out (send_udp_broadcast net message s) = (out s ++ evs)%list
     ∧ io_all_locked false evs = true
     ∧ List.length (udp_sends evs) = size (active_clients s)).
  { intros message s0.
    destruct (send_udp_broadcast_spec net message s0)
      as (sc & fc & evs & _ & Hrun & Hudp & _ & Hmx & _).
    eexists. rewrite Hrun. cbn [out]. split; [done|]. split.
    - cbn [app io_all_locked is_network_io negb orb andb].
      by rewrite io_all_locked_held.
    - rewrite !udp_sends_app, !length_app, Hudp, length_map, in_order_length.
      cbn. lia. }
  split; [intros message; by apply Hb|]. split.
  - intros sender_name full_message. rewrite route_parse.
    destruct (parse_message full_message) as [[destination content]|];
      [|by eexists].
    cbv zeta. case_decide.
    + destruct (Hb (broadcast_msg sender_name content)
                  (emit (Log (LogRouting sender_name destination)) s))
        as (evs & -> & Hl & _).
      eexists. norm_out. by split.
    + destruct (active_clients s !! destination); [by eexists|].
      destruct (active_clients s !! sender_name); by eexists.
  - intros client_sock client_addr r.
    destruct (decide (r = Received "" ∨ r = RecvError)) as [Hr|Hr].
    + rewrite registration_no_data by done. by eexists.
    + destruct r as [data|]; [|by destruct Hr; right].
      rewrite registration_parse by (intros ->; apply Hr; by left).
      destruct (parse_registration data) as [[name udp_port]|]; [by eexists|].
      destruct (Str.find ":" (Str.c_str data)); by eexists.
Qed.

(** * Identities *)

Lemma parse_registration_empty_name (port_segment : string) (udp_port : Z) :
  Stoi.stoi (Str.c_str port_segment) = Some udp_port →
  parse_registration (":" +:+ port_segment) = Some ("", udp_port).
Proof.
  intros H. unfold parse_registration.
  change (Str.c_str (":" +:+ port_segment))
    with (String ":" (Str.c_str port_segment)).
  cbn [Str.find Ascii.eqb Bool.eqb]. cbn [mbind option_bind].
  change (Str.drop (0 + 1) (String ":" (Str.c_str port_segment)))
    with (Str.c_str port_segment).
  by rewrite H.
Qed.

(** C9, as stated, fails: the first payload [:9001], whose separator is
    at position 0, registers the empty identity. *)
Lemma empty_identity_registers :
  Str.find ":" ":9001" = Some 0
  ∧ handle_client_registration ideal_net 4 (peer 1) (Received ":9001")
      (server init) =
    (Some "",
     {| active_clients := {[ "" := entry_of 4 (peer 1) "" 9001 ]};
        out := [Lock; Log (LogRegistration "" 9001);
                TcpSend 4 "SERVER: Welcome, ! TCP and UDP services active.";
                Unlock] |}).
Proof. vm_compute. done. Qed.

(** C9 (amended): the handshake accepts the empty identity: a first
    payload whose [':'] is at position 0 and whose port segment
    [std::stoi] reads is entered in the directory under the empty string.
    What holds of every identity in a reachable directory is that it has
    no [':']. *)
Theorem identity_may_be_empty (net : Net) (client_sock : Z)
    (client_addr : sockaddr_in) (port_segment : string) (udp_port : Z)
    (s : Server) :
  Stoi.stoi (Str.c_str port_segment) = Some udp_port →
  handle_client_registration net client_sock client_addr
      (Received (":" +:+ port_segment)) s =
    (Some "",
     {| active_clients :=
          <["" := entry_of client_sock client_addr "" udp_port]> (active_clients s);
        out := out s ++
          [Lock; Log (LogRegistration "" udp_port);
           TcpSend client_sock "SERVER: Welcome, ! TCP and UDP services active.";
           Unlock] |})
  ∧ ∀ evs name e,
      lookup_client name (run net evs init) = Some e → Str.find ":" name = None.
Proof.
  intros H. split.
  - rewrite registration_parse by done.
    by rewrite (parse_registration_empty_name _ _ H).
  - intros evs name e He.
    by eapply (inv_colon _ (run_inv net evs init init_inv)).
Qed.

(** The payload [:9001] registers the empty identity. *)
Lemma identity_may_be_empty_witness :
  (handle_client_registration ideal_net 4 (peer 1) (Received (":" +:+ "9001"))
     (server init)).1 = Some "".
Proof.
  assert (H : Stoi.stoi (Str.c_str "9001") = Some 9001%Z) by reflexivity.
  destruct (identity_may_be_empty ideal_net 4 (peer 1) "9001" 9001 (server init) H)
    as [-> _].
  reflexivity.
Defined.

(** The stream writes of one call of the router: none, or the delivery
    to the entry of a destination that is not the broadcast keyword, or
    the notice on the socket of the sender's own entry. *)
Lemma route_stream_writes (net : Net) (sender_name full_message : string)
    (s : Server) :
  ∃ writes,
    tcp_sends (out (route_tcp_message net sender_name full_message s))
      = (tcp_sends (out s) ++ writes)%list
    ∧ (writes = []
       ∨ (∃ destination content it,
            parse_message full_message = Some (destination, content)
            ∧ destination ≠ "BROADCAST"
            ∧ active_clients s !! destination = Some it
            ∧ writes = [(tcp_socket it, routed_msg sender_name content)])
       ∨ (∃ destination content sender_it,
            parse_message full_message = Some (destination, content)
            ∧ active_clients s !! destination = None
            ∧ active_clients s !! sender_name = Some sender_it
            ∧ writes = [(tcp_socket sender_it, not_active_msg destination)])).
Proof.
  rewrite route_parse.
  destruct (parse_message full_message) as [[destination content]|] eqn:Hp.
  - cbv zeta. case_decide as Hd.
    + destruct (send_udp_broadcast_spec net (broadcast_msg sender_name content)
                  (emit (Log (LogRouting sender_name destination)) s))
        as (sc & fc & evs & _ & -> & _ & Htcp & _).
      exists []. split; [|by left]. cbn [out emit].
      rewrite !tcp_sends_app, Htcp. cbn. by rewrite !app_nil_r.
    + destruct (active_clients s !! destination) as [it|] eqn:Hit.
      * exists [(tcp_socket it, routed_msg sender_name content)].
        split; [cbn [out]; by rewrite tcp_sends_app|].
        right; left. by exists destination, content, it.
      * destruct (active_clients s !! sender_name) as [sender_it|] eqn:Hs.
        -- exists [(tcp_socket sender_it, not_active_msg destination)].
           split; [cbn [out]; by rewrite tcp_sends_app|].
           right; right. by exists destination, content, sender_it.
        -- exists []. split; [|by left]. cbn [out].
           rewrite tcp_sends_app. cbn. by rewrite app_nil_r.
  - exists []. split; [|by left]. cbn [out emit].
    rewrite tcp_sends_app. cbn. by rewrite app_nil_r.
Qed.

(** C10: the handshake registers the identity [BROADCAST] like any
    other, whatever port [std::stoi] reads.  And whatever the directory
    holds, a payload whose destination segment is [BROADCAST] is handed to
    [send_udp_broadcast]: it adds one datagram per entry and no stream
    write at all.  No payload whatever makes the router deliver a message
    to the entry it finds under [BROADCAST]: a delivery is always to the
    entry of a destination other than the keyword. *)
Theorem broadcast_keyword_shadows_identity (net : Net) (client_sock : Z)
    (client_addr : sockaddr_in) (port_segment : string) (udp_port : Z)
    (s : Server) (sender_name content : string) :
  Stoi.stoi (Str.c_str port_segment) = Some udp_port →
  let registered :=
    handle_client_registration net client_sock client_addr
      (Received ("BROADCAST:" +:+ port_segment)) s in
  let routed := route_tcp_message net sender_name ("BROADCAST:" +:+ content) s in
  registered.1 = Some "BROADCAST"
  ∧ active_clients registered.2 !! "BROADCAST" =
      Some (entry_of client_sock client_addr "BROADCAST" udp_port)
  ∧ routed =
      send_udp_broadcast net ("BROADCAST FROM " +:+ sender_name +:+ ": " +:+ content)
        (emit (Log (LogRouting sender_name "BROADCAST")) s)
  ∧ tcp_sends (out routed) = tcp_sends (out s)
  ∧ List.length (udp_sends (out routed)) =
      List.length (udp_sends (out s)) + size (active_clients s)
  ∧ ∀ full_message destination rest it,
      parse_message full_message = Some (destination, rest) →
      active_clients s !! destination = Some it →
      tcp_sends (out (route_tcp_message net sender_name full_message s)) =
        (tcp_sends (out s) ++ [(tcp_socket it, routed_msg sender_name rest)])%list →
      destination ≠ "BROADCAST".
Proof.
  intros H registered routed.
  assert (Hp : parse_registration ("BROADCAST:" +:+ port_segment)
               = Some ("BROADCAST", udp_port)).
  { unfold parse_registration.
    change (Str.c_str ("BROADCAST:" +:+ port_segment))
      with ("BROADCAST" +:+ String ":" (Str.c_str port_segment)).
    rewrite StrFacts.find_app by done. cbn [mbind option_bind String.length].
    change (Str.drop (9 + 1) ("BROADCAST" +:+ String ":" (Str.c_str port_segment)))
      with (Str.c_str port_segment).
    by rewrite H. }
  assert (Hr : routed =
      send_udp_broadcast net ("BROADCAST FROM " +:+ sender_name +:+ ": " +:+ content)
        (emit (Log (LogRouting sender_name "BROADCAST")) s)).
  { subst routed. rewrite route_parse.
    change ("BROADCAST:" +:+ content) with ("BROADCAST" +:+ ":" +:+ content).
    rewrite parse_message_app by done. cbv zeta. by rewrite decide_True. }
  subst registered. rewrite registration_parse by done. rewrite Hp.
  cbn [fst snd active_clients]. rewrite lookup_insert_eq.
  do 3 (split; [done|]).
  rewrite Hr.
  destruct (send_udp_broadcast_spec net
              ("BROADCAST FROM " +:+ sender_name +:+ ": " +:+ content)
              (emit (Log (LogRouting sender_name "BROADCAST")) s))
    as (sc & fc & evs & _ & -> & Hudp & Htcp & _); cbn [out emit active_clients].
  split; [|split].
  - rewrite !tcp_sends_app, Htcp. cbn. by rewrite !app_nil_r.
  - rewrite !udp_sends_app, !length_app, Hudp, length_map, in_order_length.
    cbn. lia.
  - intros full_message destination rest it Hparse Hit Hw.
    destruct (route_stream_writes net sender_name full_message s)
      as (writes & Hout & Hcases).
    rewrite Hout in Hw. apply app_inv_head in Hw. subst writes.
    destruct Hcases as [?|[(d & c & it' & Hp' & Hd & _)|(d & c & it' & Hp' & Hn & _)]];
      [done| |]; rewrite Hparse in Hp'; injection Hp' as <- <-; congruence.
Qed.

(** With [BROADCAST] registered on socket 5, [BROADCAST:hello] adds no
    stream write. *)
Lemma broadcast_keyword_shadows_identity_witness :
  tcp_sends (out (route_tcp_message ideal_net "Lahore" ("BROADCAST:" +:+ "hello")
                    (server (run ideal_net broadcast_named init))))
  = tcp_sends (out (server (run ideal_net broadcast_named init))).
Proof.
  assert (H : Stoi.stoi (Str.c_str "9002") = Some 9002%Z) by reflexivity.
  exact (proj1 (proj2 (proj2 (proj2
    (broadcast_keyword_shadows_identity ideal_net 5 (peer 2) "9002" 9002
       (server (run ideal_net broadcast_named init)) "Lahore" "hello" H))))).
Defined.

(** * Beyond the claims: what one step of the process emits *)

Lemma closes_app (l l' : list io) :
  closes (l ++ l') = (closes l ++ closes l')%list.
Proof. apply omap_app. Qed.

Lemma mutex_trace_app (l l' : list io) (held held' : bool) :
  mutex_trace held l = Some held' →
  mutex_trace held (l ++ l') = mutex_trace held' l'.
Proof.
  revert held. induction l as [|e l IH]; intros held; cbn.
  - by intros [= ->].
  - destruct e; try apply IH; destruct held; try done; apply IH.
Qed.

Lemma plain_mutex_trace (evs : list io) (held : bool) :
  Forall (λ e, is_plain e = true) evs → mutex_trace held evs = Some held.
Proof.
  induction 1 as [|e evs He _ IH]; [done|].
  destruct e; try discriminate He; exact IH.
Qed.

Lemma plain_tcp_sends (evs : list io) :
  Forall (λ e, is_plain e = true) evs → tcp_sends evs = [].
Proof.
  induction 1 as [|e evs He _ IH]; [done|].
  destruct e; try discriminate He; exact IH.
Qed.

Lemma plain_closes (evs : list io) :
  Forall (λ e, is_plain e = true) evs → closes evs = [].
Proof.
  induction 1 as [|e evs He _ IH]; [done|].
  destruct e; try discriminate He; exact IH.
Qed.

Section events.

Variable net : Net.

Lemma broadcast_loop_plain (message : string) (l : list (string * ClientInfo))
    (success_count fail_count : Z) (s : Server) :
  ∃ (sc fc : Z) (evs : list io),
    broadcast_loop net message l success_count fail_count s
      = (sc, fc, {| active_clients := active_clients s; out := out s ++ evs |})
    ∧ Forall (λ e, is_plain e = true) evs.
Proof.
  revert success_count fail_count s.
  induction l as [|[name client] l IH]; intros success_count fail_count s.
  - exists success_count, fail_count, []. rewrite app_nil_r. by destruct s.
  - cbn [broadcast_loop sendto].
    destruct (sendto_ok net (out s) (udp_addr client) message).
    + destruct (IH (success_count + 1)%Z fail_count
                  (emit (UdpSend (udp_addr client) message) s))
        as (sc & fc & evs & -> & Hp).
      exists sc, fc, (UdpSend (udp_addr client) message :: evs).
      norm_out. split; [done|by constructor].
    + destruct (IH success_count (fail_count + 1)%Z
                  (emit (Log (LogUdpFail name))
                     (emit (UdpSend (udp_addr client) message) s)))
        as (sc & fc & evs & -> & Hp).
      exists sc, fc,
        (UdpSend (udp_addr client) message :: Log (LogUdpFail name) :: evs).
      norm_out. split; [done|by repeat constructor].
Qed.

(** What a call of [send_udp_broadcast] adds to the output. *)
Lemma send_udp_broadcast_events (message : string) (s : Server) :
  ∃ evs,
    send_udp_broadcast net message s =
      {| active_clients := active_clients s; out := out s ++ evs |}
    ∧ mutex_trace false evs = Some false
    ∧ tcp_sends evs = []
    ∧ closes evs = [].
Proof.
  unfold send_udp_broadcast.
  destruct (broadcast_loop_plain message
              (in_order (active_clients (emit (Log (LogBroadcastStart message))
                                           (emit Lock s)))) 0 0
              (emit (Log (LogBroadcastStart message)) (emit Lock s)))
    as (sc & fc & evs & -> & Hp).
  exists ([Lock; Log (LogBroadcastStart message)] ++ evs ++
          [Log (LogBroadcastSummary (Z.of_nat (size (active_clients s))) sc);
           Unlock])%list.
  norm_out. split; [done|].
  split; [|split].
  - cbn [app mutex_trace].
    by rewrite (mutex_trace_app _ _ _ _ (plain_mutex_trace evs true Hp)).
  - change (tcp_sends ([Lock; Log (LogBroadcastStart message)] ++ evs ++
                       [Log (LogBroadcastSummary
                               (Z.of_nat (size (active_clients s))) sc); Unlock])
            = []).
    rewrite !tcp_sends_app, (plain_tcp_sends _ Hp). done.
  - change (closes ([Lock; Log (LogBroadcastStart message)] ++ evs ++
                    [Log (LogBroadcastSummary
                            (Z.of_nat (size (active_clients s))) sc); Unlock])
            = []).
    rewrite !closes_app, (plain_closes _ Hp). done.
Qed.

(** What a call of [route_tcp_message] adds to the output. *)
Lemma route_tcp_message_events (sender_name full_message : string) (s : Server) :
  ∃ evs,
    route_tcp_message net sender_name full_message s =
      {| active_clients := active_clients s; out := out s ++ evs |}
    ∧ mutex_trace false evs = Some false
    ∧ closes evs = []
    ∧ ∀ k m, (k, m) ∈ tcp_sends evs →
        ∃ name it, active_clients s !! name = Some it ∧ tcp_socket it = k.
Proof.
  rewrite route_parse.
  destruct (parse_message full_message) as [[destination content]|].
  - cbv zeta. case_decide.
    + destruct (send_udp_broadcast_events (broadcast_msg sender_name content)
                  (emit (Log (LogRouting sender_name destination)) s))
        as (evs & -> & Hm & Ht & Hc).
      exists (Log (LogRouting sender_name destination) :: evs).
      norm_out. repeat split; try done.
      intros k m Hin.
      change (tcp_sends (Log (LogRouting sender_name destination) :: evs))
        with (tcp_sends evs) in Hin.
      rewrite Ht in Hin. by apply elem_of_nil in Hin.
    + destruct (active_clients s !! destination) as [it|] eqn:Hit.
      * eexists. repeat split; try done.
        intros k m [= -> _]%list_elem_of_singleton. by exists destination, it.
      * destruct (active_clients s !! sender_name) as [sender_it|] eqn:Hs;
          eexists; repeat split; try done.
        -- intros k m [= -> _]%list_elem_of_singleton. by exists sender_name, sender_it.
        -- by intros k m ?%elem_of_nil.
  - eexists. repeat split; try done. by intros k m ?%elem_of_nil.
Qed.

End events.

(** The way out of the receive loop. *)
Lemma step_recv_closed_receive (net : Net) (campus_name : string) (client_sock : Z)
    (r : recv_result) (s : Server) :
  match r with Received (String _ _) => False | _ => True end →
  handle_client_receive net campus_name client_sock r s =
    (false,
     {| active_clients := delete campus_name (active_clients s);
        out := out s ++
          [Log (match r with
                | RecvError => LogRecvFailed
                | _ => LogDisconnect campus_name
                end);
           CloseSock client_sock; Lock; Log (LogRemoved campus_name); Unlock] |}).
Proof.
  destruct r as [[|a data]|]; [|done|]; intros _;
    unfold handle_client_receive; by norm_out.
Qed.

Section step_events.

Variable net : Net.

(** What one step adds to the output: the mutex is taken and released in
    turn (and left held only by a step that ends the process), and the
    only descriptor ever closed is the one of the stepping thread, which
    leaves the threads that hold a descriptor. *)
Lemma step_events (ev : event) (sys : System) :
  ∃ new,
    out (server (step net ev sys)) = (out (server sys) ++ new)%list
    ∧ (∃ held, mutex_trace false new = Some held
               ∧ (held = true → halted (step net ev sys) = true))
    ∧ (closes new = []
       ∨ ∃ k r, (ev = Recv k r ∨ ev = Hangup k r) ∧ closes new = [k]
                ∧ is_Some (threads sys !! k)
                ∧ threads (step net ev sys) !! k = None).
Proof.
  unfold step. destruct (halted sys) eqn:Hh.
  { exists []. rewrite app_nil_r. split; [done|].
    split; [by exists false|by left]. }
  assert (Hidle : ∃ new,
    out (server sys) = (out (server sys) ++ new)%list
    ∧ (∃ held, mutex_trace false new = Some held
               ∧ (held = true → halted sys = true))
    ∧ (closes new = []
       ∨ ∃ k r, (ev = Recv k r ∨ ev = Hangup k r) ∧ closes new = [k]
                ∧ is_Some (threads sys !! k)
                ∧ threads sys !! k = None)).
  { exists []. rewrite app_nil_r. split; [done|].
    split; [by exists false|by left]. }
  destruct ev as [client_sock client_addr | client_sock r | line
                 | client_sock r | campus | client_sock data].
  - (* accept *)
    destruct (client_sock <? 0)%Z.
    { eexists. split; [done|]. split; [by exists false|by left]. }
    destruct (threads sys !! client_sock); [done|].
    eexists. split; [done|]. split; [by exists false|by left].
  - (* recv *)
    destruct (threads sys !! client_sock) as [[client_addr|campus]|] eqn:Ht;
      [| |done].
    + (* first payload *)
      assert (Hfail : ∀ l : list io,
        closes l = [] → mutex_trace false l = Some false →
        ∃ new,
          (out (server sys) ++ l ++ [Log LogRegisterFailed; CloseSock client_sock]
           = out (server sys) ++ new)%list
          ∧ (∃ held, mutex_trace false new = Some held
                     ∧ (held = true → false = true))
          ∧ (closes new = []
             ∨ ∃ k r0, (Recv client_sock r = Recv k r0
                        ∨ Recv client_sock r = Hangup k r0)
                       ∧ closes new = [k]
                       ∧ is_Some (threads sys !! k)
                       ∧ delete client_sock (threads sys) !! k = None)).
      { intros l Hc Hm. eexists. split; [done|]. split.
        - exists false. by rewrite (mutex_trace_app _ _ _ _ Hm).
        - right. exists client_sock, r. rewrite closes_app, Hc.
          split; [by left|]. repeat split; try done. by apply lookup_delete_eq. }
      destruct (decide (r = Received "" ∨ r = RecvError)) as [Hr|Hr].
      * rewrite registration_no_data by done. cbn [server out threads halted].
        by apply (Hfail []).
      * destruct r as [data|]; [|by destruct Hr; right].
        rewrite registration_parse by (intros ->; apply Hr; by left).
        destruct (parse_registration data) as [[name udp_port]|].
        -- cbn [server out threads halted]. eexists. split; [done|].
           split; [by exists false|by left].
        -- cbn [server out threads halted].
           destruct (Str.find ":" (Str.c_str data)).
           ++ by apply (Hfail [Log LogInvalidPort]).
           ++ by apply (Hfail []).
    + (* receive loop *)
      destruct r as [[|a data]|].
      * rewrite step_recv_closed_receive by done. cbn [server out threads halted].
        eexists. split; [done|]. split; [by exists false|]. right.
        exists client_sock, (Received ""). split; [by left|].
        repeat split; try done. by apply lookup_delete_eq.
      * cbn [handle_client_receive].
        destruct (route_tcp_message_events net campus (Str.c_str (String a data))
                    (server sys)) as (new & -> & Hm & Hc & Hw).
        cbn [server out threads halted]. exists new. split; [done|].
        split; [by exists false|by left].
      * rewrite step_recv_closed_receive by done. cbn [server out threads halted].
        eexists. split; [done|]. split; [by exists false|]. right.
        exists client_sock, RecvError. split; [by left|].
        repeat split; try done. by apply lookup_delete_eq.
  - (* console *)
    unfold handle_server_input.
    repeat case_decide; cbn [server out threads halted emit].
    + destruct (send_udp_broadcast_events net
                  ("SERVER BROADCAST: " +:+ Str.drop 10 line) (server sys))
        as (new & -> & Hm & Ht & Hc).
      cbn [out]. exists new. split; [done|]. split; [by exists false|by left].
    + eexists. split; [done|]. split; [by exists false|by left].
    + eexists. split; [done|]. split; [by exists false|by left].
    + exists []. rewrite app_nil_r. split; [done|].
      split; [by exists false|by left].
  - (* hangup *)
    destruct (threads sys !! client_sock) as [[client_addr|campus]|] eqn:Ht;
      try done.
    destruct (is_hangup r); [|done].
    unfold handle_client_hangup. cbn [server out threads halted]. norm_out.
    eexists. split; [done|]. split; [by exists false|]. right.
    exists client_sock, r. split; [by right|].
    repeat split; try done. by apply lookup_delete_eq.
  - (* unregister *)
    destruct (remove_first campus (closing sys)); [|done].
    unfold handle_client_unregister. cbn [server out threads halted]. norm_out.
    eexists. split; [done|]. split; [by exists false|by left].
  - (* sigpipe *)
    destruct (threads sys !! client_sock) as [[client_addr|campus]|]; [| |done].
    + rewrite registration_sigpipe_parse.
      destruct (parse_registration data) as [[name udp_port]|]; [|done].
      cbn [server out threads halted].
      eexists. split; [done|]. split; [by exists true|by left].
    + destruct data as [|a data]; [done|].
      rewrite route_sigpipe_parse.
      destruct (parse_message _) as [[destination content]|]; [|done].
      case_decide; [done|].
      destruct (active_clients (server sys) !! destination).
      { cbn [server out threads halted].
        eexists. split; [done|]. split; [by exists true|by left]. }
      destruct (active_clients (server sys) !! campus); [|done].
      cbn [server out threads halted].
      eexists. split; [done|]. split; [by exists true|by left].
Qed.

End step_events.

(** ** The mutex and the descriptors over a run *)

Lemma step_halted (net : Net) (ev : event) (sys : System) :
  halted sys = true → step net ev sys = sys.
Proof. intros H. unfold step. by rewrite H. Qed.


(** X3: a step closes at most one descriptor, and only when the thread
    serving it has read its last [recv] result: the descriptor is the one
    of the event, a thread was serving it, and that thread is gone after
    the step.  No other thread's socket is ever closed. *)
Theorem close_only_own_socket_at_exit (net : Net) (ev : event) (sys : System) :
  ∃ new,
    out (server (step net ev sys)) = (out (server sys) ++ new)%list
    ∧ (closes new = []
       ∨ ∃ k r, (ev = Recv k r ∨ ev = Hangup k r) ∧ closes new = [k]
                ∧ is_Some (threads sys !! k)
                ∧ threads (step net ev sys) !! k = None).
Proof.
  destruct (step_events net ev sys) as (new & Hout & _ & Hc).
  by exists new.
Qed.

(** ** A descriptor closed and handed out again *)

(** The two halves of the way out of the receive loop, run without a
    break, are [handle_client_receive] on an end of stream or an error. *)
Lemma hangup_then_unregister (net : Net) (campus_name : string) (client_sock : Z)
    (r : recv_result) (s : Server) :
  is_hangup r = true →
  handle_client_receive net campus_name client_sock r s =
    (false,
     handle_client_unregister campus_name
       (handle_client_hangup campus_name client_sock r s)).
Proof.
  destruct r as [[|a data]|]; [|done|]; intros _;
    unfold handle_client_receive, handle_client_unregister, handle_client_hangup;
    by norm_out.
Qed.

(** X2: between the [close] of a session's socket and the erasure of its
    entry the entry stays in the directory.  When the thread of [B]
    closes descriptor [k] and [accept] hands [k] to a new connection
    before that thread has taken the mutex, a payload [B:<content>] from
    a live session [A] is written to [k], now the socket of the new
    connection, and [B]'s entry is still there. *)
Theorem stale_entry_reaches_new_connection (net : Net) (sys : System)
    (k sockA : Z) (A B content data : string) (r : recv_result)
    (new_addr : sockaddr_in) (e : ClientInfo) :
  let sys' :=
    run net [Hangup k r; Accept k new_addr; Recv sockA (Received data)] sys in
  halted sys = false →
  threads sys !! k = Some (Registered B) →
  lookup_client B sys = Some e →
  tcp_socket e = k →
  (0 ≤ k)%Z →
  is_hangup r = true →
  threads sys !! sockA = Some (Registered A) →
  sockA ≠ k →
  Str.c_str data = B +:+ ":" +:+ content →
  Str.find ":" B = None →
  B ≠ "BROADCAST" →
  threads sys' !! k = Some (Connected new_addr)
  ∧ lookup_client B sys' = Some e
  ∧ closing sys' = B :: closing sys
  ∧ closes (out (server sys')) = (closes (out (server sys)) ++ [k])%list
  ∧ tcp_sends (out (server sys')) =
      (tcp_sends (out (server sys)) ++ [(k, "FROM " +:+ A +:+ ": " +:+ content)])%list.
Proof.
  intros sys' Hh HtB HB Hk Hpos Hr HtA Hne Hdata HBc HBb. subst sys'.
  cbn [run fold_left].
  assert (H1 : step net (Hangup k r) sys =
    {| server := handle_client_hangup B k r (server sys);
       threads := delete k (threads sys);
       closing := B :: closing sys;
       halted := false |}).
  { unfold step. by rewrite Hh, HtB, Hr. }
  rewrite H1.
  assert (H2 : ∀ s, step net (Accept k new_addr)
      {| server := s; threads := delete k (threads sys);
         closing := B :: closing sys; halted := false |} =
    {| server := emit (Log (LogAccepted new_addr)) s;
       threads := <[k := Connected new_addr]> (delete k (threads sys));
       closing := B :: closing sys;
       halted := false |}).
  { intros s. unfold step. cbn [halted threads server closing].
    rewrite lookup_delete_eq.
    by replace (k <? 0)%Z with false by (symmetry; by apply Z.ltb_ge). }
  rewrite H2.
  rewrite (step_recv_data net _ sockA A data);
    [|done
     |cbn [threads]; rewrite lookup_insert_ne, lookup_delete_ne by congruence; done
     |by eapply c_str_data_nonempty, app_colon_nonempty].
  cbn [server threads closing].
  rewrite Hdata, route_parse, parse_message_app by done. cbv zeta.
  rewrite decide_False by done.
  unfold lookup_client in *.
  unfold handle_client_hangup. cbn [active_clients emit out]. rewrite HB.
  cbn [server threads closing active_clients out].
  split; [by rewrite lookup_insert_eq|]. split; [done|]. split; [done|].
  rewrite <- !app_assoc, !closes_app, !tcp_sends_app. cbn [app].
  subst k. split; [|unfold routed_msg]; cbn; by rewrite ?app_nil_r.
Qed.

(** [Karachi], on socket 5, hangs up; socket 5 is accepted again at once;
    [Karachi:hello] from [Lahore] goes to the new connection. *)
Lemma stale_entry_reaches_new_connection_witness :
  let sys' :=
    run ideal_net [Hangup 5 (Received ""); Accept 5 (peer 3);
                   Recv 4 (Received "Karachi:hello")]
      (run ideal_net two_campuses init) in
  threads sys' !! 5%Z = Some (Connected (peer 3))
  ∧ tcp_sends (out (server sys')) =
      [(4%Z, welcome_msg "Lahore"); (5%Z, welcome_msg "Karachi");
       (5%Z, "FROM Lahore: hello")].
Proof.
  intros sys'.
  assert (Hpos : (0 ≤ 5)%Z) by lia.
  assert (Hne : (4 ≠ 5)%Z) by discriminate.
  assert (Hb : "Karachi" ≠ "BROADCAST") by discriminate.
  destruct (stale_entry_reaches_new_connection ideal_net
              (run ideal_net two_campuses init) 5 4 "Lahore" "Karachi" "hello"
              "Karachi:hello" (Received "") (peer 3)
              (entry_of 5 (peer 2) "Karachi" 9002)
              eq_refl eq_refl eq_refl eq_refl Hpos eq_refl eq_refl Hne
              eq_refl eq_refl Hb) as (H1 & _ & _ & _ & H2).
  split; [exact H1|]. etransitivity; [exact H2|]. vm_compute. reflexivity.
Defined.

(** ** Registration followed by disconnection *)

(** X4: a connection that registers under a name not in the directory and
    then reads end of stream or an error leaves the directory exactly as
    it found it: while it is registered the lookup of its name gives its
    entry, afterwards the directory is the one before the registration,
    its thread is gone and its descriptor has been closed once. *)
Theorem register_then_disconnect_restores_directory (net : Net) (sys : System)
    (client_sock : Z) (client_addr : sockaddr_in) (data name : string)
    (udp_port : Z) (r : recv_result) :
  let sys1 := step net (Recv client_sock (Received data)) sys in
  let sys2 := step net (Recv client_sock r) sys1 in
  halted sys = false →
  threads sys !! client_sock = Some (Connected client_addr) →
  parse_registration data = Some (name, udp_port) →
  lookup_client name sys = None →
  r = Received "" ∨ r = RecvError →
  lookup_client name sys1 = Some (entry_of client_sock client_addr name udp_port)
  ∧ active_clients (server sys2) = active_clients (server sys)
  ∧ threads sys2 = delete client_sock (threads sys)
  ∧ closes (out (server sys2)) = (closes (out (server sys)) ++ [client_sock])%list.
Proof.
  intros sys1 sys2 Hh Ht Hp Hfree Hr.
  pose proof (parse_registration_nonempty _ _ _ Hp) as Hne.
  assert (H1 : sys1 =
    {| server :=
         {| active_clients :=
              <[name := entry_of client_sock client_addr name udp_port]>
                (active_clients (server sys));
            out := out (server sys) ++
              [Lock; Log (LogRegistration name udp_port);
               TcpSend client_sock (welcome_msg name); Unlock] |};
       threads := <[client_sock := Registered name]> (threads sys);
       closing := closing sys;
       halted := false |}).
  { subst sys1. rewrite step_recv_first with (client_addr := client_addr) by done.
    by rewrite Hp. }
  subst sys2. rewrite H1.
  rewrite step_recv_closed with (name := name);
    [|done|by apply lookup_insert_eq|done].
  unfold lookup_client in *. cbn [server threads active_clients out].
  split; [by rewrite lookup_insert_eq|]. split; [by apply delete_insert_id|].
  split; [by apply delete_insert_eq|].
  rewrite <- app_assoc, !closes_app. cbn. by rewrite ?app_nil_r.
Qed.

(** [Lahore] registers on socket 4 and its stream ends: the directory is
    empty again. *)
Lemma register_then_disconnect_restores_directory_witness :
  active_clients (server
    (run ideal_net [Recv 4 (Received "Lahore:9001"); Recv 4 (Received "")]
       (step ideal_net (Accept 4 (peer 1)) init))) = ∅.
Proof.
  refine (proj1 (proj2 (register_then_disconnect_restores_directory ideal_net
            (step ideal_net (Accept 4 (peer 1)) init) 4 (peer 1) "Lahore:9001"
            "Lahore" 9001 (Received "") _ _ _ _ _)));
    try (vm_compute; reflexivity).
  by left.
Defined.

(** The two halves of the way out of the receive loop as two steps. *)
Lemma step_hangup_unregister (net : Net) (sys : System) (client_sock : Z)
    (campus_name : string) (r : recv_result) :
  halted sys = false →
  threads sys !! client_sock = Some (Registered campus_name) →
  is_hangup r = true →
  run net [Hangup client_sock r; Unregister campus_name] sys =
    {| server := handle_client_unregister campus_name
                   (handle_client_hangup campus_name client_sock r (server sys));
       threads := delete client_sock (threads sys);
       closing := closing sys;
       halted := false |}.
Proof.
  intros Hh Ht Hr. cbn [run fold_left].
  assert (H1 : step net (Hangup client_sock r) sys =
    {| server := handle_client_hangup campus_name client_sock r (server sys);
       threads := delete client_sock (threads sys);
       closing := campus_name :: closing sys;
       halted := false |}).
  { unfold step. by rewrite Hh, Ht, Hr. }
  rewrite H1. unfold step. cbn [halted closing remove_first server threads].
  by rewrite decide_True.
Qed.

(** X5: when the thread of [B] has closed its socket and erased the entry
    of [B], a payload [B:<content>] read next from another live session
    [A] (so before any new registration of [B]) is not delivered: [B] has
    no entry, and the only stream write is the notice that [B] is not
    active, on the socket of the entry of [A] (no write at all when [A]
    has no entry or the two threads served the same name).  The thread of
    [A] stays in its receive loop. *)
Theorem disconnected_identity_is_unreachable (net : Net) (sys : System)
    (sockA sockB : Z) (A B content data : string) (r : recv_result) :
  let sys' :=
    run net [Hangup sockB r; Unregister B; Recv sockA (Received data)] sys in
  halted sys = false →
  threads sys !! sockB = Some (Registered B) →
  threads sys !! sockA = Some (Registered A) →
  sockA ≠ sockB →
  is_hangup r = true →
  Str.c_str data = B +:+ ":" +:+ content →
  Str.find ":" B = None →
  B ≠ "BROADCAST" →
  lookup_client B sys' = None
  ∧ tcp_sends (out (server sys')) =
      (tcp_sends (out (server sys)) ++
       match (if decide (A = B) then None else lookup_client A sys) with
       | Some it => [(tcp_socket it, not_active_msg B)]
       | None => []
       end)%list
  ∧ threads sys' !! sockA = Some (Registered A)
  ∧ threads sys' !! sockB = None
  ∧ closing sys' = closing sys.
Proof.
  intros sys' Hh HtB HtA Hne Hr Hdata HBc HBb. subst sys'.
  change (run net [Hangup sockB r; Unregister B; Recv sockA (Received data)] sys)
    with (step net (Recv sockA (Received data))
            (run net [Hangup sockB r; Unregister B] sys)).
  rewrite (step_hangup_unregister net sys sockB B r) by done.
  rewrite step_recv_data with (name := A);
    [|done|cbn [threads]; by rewrite lookup_delete_ne by congruence
     |by eapply c_str_data_nonempty, app_colon_nonempty].
  rewrite Hdata, route_parse, parse_message_app by done. cbv zeta.
  rewrite decide_False by done.
  unfold lookup_client, handle_client_unregister, handle_client_hangup.
  cbn [server threads closing active_clients out emit].
  rewrite lookup_delete_eq.
  split; [by apply lookup_delete_eq|].
  split; [|split; [by rewrite lookup_delete_ne by congruence|
                   split; [by apply lookup_delete_eq|done]]].
  rewrite lookup_delete. case_decide as HAB.
  - rewrite decide_True by done. cbn [out].
    rewrite <- !app_assoc, !tcp_sends_app. cbn. by rewrite ?app_nil_r.
  - rewrite decide_False by done.
    destruct (active_clients (server sys) !! A) as [it|]; cbn [out];
      rewrite <- !app_assoc, !tcp_sends_app; cbn; by rewrite ?app_nil_r.
Qed.

(** [Karachi] disconnects and its entry is erased; [Karachi:hello] from
    [Lahore] then brings [Lahore] the notice. *)
Lemma disconnected_identity_is_unreachable_witness :
  tcp_sends (out (server
    (run ideal_net [Hangup 5 (Received ""); Unregister "Karachi";
                    Recv 4 (Received "Karachi:hello")]
       (run ideal_net two_campuses init))))
  = [(4%Z, welcome_msg "Lahore"); (5%Z, welcome_msg "Karachi");
     (4%Z, not_active_msg "Karachi")].
Proof.
  assert (Hne : (4 ≠ 5)%Z) by discriminate.
  assert (Hb : "Karachi" ≠ "BROADCAST") by discriminate.
  refine (eq_trans (proj1 (proj2
    (disconnected_identity_is_unreachable ideal_net
       (run ideal_net two_campuses init) 4 5 "Lahore" "Karachi" "hello"
       "Karachi:hello" (Received "") eq_refl eq_refl eq_refl Hne
       eq_refl eq_refl eq_refl Hb))) _).
  vm_compute. reflexivity.
Defined.

(** ** Console commands *)

Lemma console_broadcast_step (net : Net) (sys : System) (text : string) :
  halted sys = false →
  step net (ConsoleLine ("BROADCAST:" +:+ text)) sys =
    {| server := send_udp_broadcast net ("SERVER BROADCAST: " +:+ text) (server sys);
       threads := threads sys;
       closing := closing sys;
       halted := false |}.
Proof. intros Hh. unfold step. by rewrite Hh. Qed.

(** X6: a console line [BROADCAST:<text>] sends the datagram
    [SERVER BROADCAST: <text>] once to the datagram address of every
    entry, whatever the network does; no stream is written, nothing is
    closed, and directory and threads are as before. *)
Theorem console_broadcast_reaches_every_entry (net : Net) (sys : System)
    (text : string) :
  halted sys = false →
  let sys' := step net (ConsoleLine ("BROADCAST:" +:+ text)) sys in
  ∃ new,
    out (server sys') = (out (server sys) ++ new)%list
    ∧ udp_sends new ≡ₚ
        map (λ p, (udp_addr p.2, "SERVER BROADCAST: " +:+ text))
          (map_to_list (active_clients (server sys)))
    ∧ tcp_sends new = []
    ∧ closes new = []
    ∧ active_clients (server sys') = active_clients (server sys)
    ∧ threads sys' = threads sys
    ∧ halted sys' = false.
Proof.
  intros Hh sys'. subst sys'. rewrite console_broadcast_step by done.
  cbn [server threads halted].
  destruct (send_udp_broadcast_spec net ("SERVER BROADCAST: " +:+ text) (server sys))
    as (sc & fc & evs & _ & Hrun & Hudp & _).
  destruct (send_udp_broadcast_events net ("SERVER BROADCAST: " +:+ text) (server sys))
    as (new & Hnew & _ & Ht & Hc).
  rewrite Hnew in Hrun. injection Hrun as Heq. apply app_inv_head in Heq.
  rewrite Hnew. cbn [out active_clients]. exists new.
  repeat split; try done.
  rewrite Heq.
  change (udp_sends ([Lock; Log (LogBroadcastStart ("SERVER BROADCAST: " +:+ text))]
                     ++ evs ++
                     [Log (LogBroadcastSummary
                             (Z.of_nat (size (active_clients (server sys)))) sc);
                      Unlock]) ≡ₚ
          map (λ p, (udp_addr p.2, "SERVER BROADCAST: " +:+ text))
            (map_to_list (active_clients (server sys)))).
  rewrite !udp_sends_app, Hudp. cbn. rewrite app_nil_r.
  apply Permutation_map, in_order_Permutation.
Qed.

(** X7: a console line that does not start with [BROADCAST:] prints at
    most one line on the console and does nothing else: [clients_mutex]
    is neither taken nor released, nothing is sent, written or closed,
    and neither the directory nor the threads change; it stops the
    process exactly when it is [exit] or [quit]. *)
Theorem console_other_lines_are_local (net : Net) (sys : System) (line : string) :
  halted sys = false →
  Str.substr line 0 10 ≠ "BROADCAST:" →
  let sys' := step net (ConsoleLine line) sys in
  ∃ new,
    out (server sys') = (out (server sys) ++ new)%list
    ∧ (new = [] ∨ new = [Log LogShutdown] ∨ new = [Log LogUnknownCommand])
    ∧ Forall (λ e, is_mutex e = false ∧ is_network_io e = false) new
    ∧ udp_sends new = [] ∧ tcp_sends new = [] ∧ closes new = []
    ∧ active_clients (server sys') = active_clients (server sys)
    ∧ threads sys' = threads sys
    ∧ (halted sys' = true ↔ line = "exit" ∨ line = "quit").
Proof.
  intros Hh Hline sys'. subst sys'. unfold step. rewrite Hh.
  unfold handle_server_input. rewrite decide_False by done.
  repeat case_decide; cbn [server threads halted negb emit out active_clients].
  - eexists. split; [done|]. split; [by right; left|].
    split; [by repeat constructor|]. by repeat split.
  - eexists. split; [done|]. split; [by right; right|].
    split; [by repeat constructor|]. by repeat split.
  - exists []. rewrite app_nil_r. split; [done|]. split; [by left|].
    split; [by constructor|]. by repeat split.
Qed.

(** The line [status] is not a command: only a warning is printed. *)
Lemma console_other_lines_are_local_witness :
  out (server (step ideal_net (ConsoleLine "status") init)) = [Log LogUnknownCommand].
Proof.
  assert (H : Str.substr "status" 0 10 ≠ "BROADCAST:") by discriminate.
  destruct (console_other_lines_are_local ideal_net init "status" eq_refl H)
    as (new & _).
  reflexivity.
Defined.

(** [BROADCAST:hello] on the console, with two campuses registered: two
    datagrams and no stream write. *)
Lemma console_broadcast_reaches_every_entry_witness :
  let sys := run ideal_net two_campuses init in
  ∃ new,
    out (server (step ideal_net (ConsoleLine ("BROADCAST:" +:+ "hello")) sys))
      = (out (server sys) ++ new)%list
    ∧ List.length (udp_sends new) = 2
    ∧ tcp_sends new = [].
Proof.
  intros sys.
  destruct (console_broadcast_reaches_every_entry ideal_net sys "hello" eq_refl)
    as (new & Hout & Hudp & Htcp & _).
  exists new. split; [done|]. split; [|done].
  by rewrite (Permutation_length Hudp).
Defined.

(** ** Registration and what follows *)

(** X8: a peer that registers with a port between 0 and 65535 is
    reached by a console broadcast that directly follows its
    registration: whatever the network does and whoever else is
    registered, the datagrams that broadcast sends include one to the
    peer's own network address and exactly that port. *)
Theorem registered_peer_receives_broadcast (net : Net) (sys : System)
    (client_sock : Z) (client_addr : sockaddr_in) (data name text : string)
    (udp_port : Z) :
  let sys1 := step net (Recv client_sock (Received data)) sys in
  let sys2 := step net (ConsoleLine ("BROADCAST:" +:+ text)) sys1 in
  halted sys = false →
  threads sys !! client_sock = Some (Connected client_addr) →
  parse_registration data = Some (name, udp_port) →
  (0 ≤ udp_port < 65536)%Z →
  ∃ new,
    out (server sys2) = (out (server sys1) ++ new)%list
    ∧ ({| sin_addr := sin_addr client_addr; sin_port := udp_port |},
       "SERVER BROADCAST: " +:+ text) ∈ udp_sends new.
Proof.
  intros sys1 sys2 Hh Ht Hp Hport. subst sys2 sys1.
  pose proof (parse_registration_nonempty _ _ _ Hp) as Hne.
  rewrite (step_recv_first net sys client_sock client_addr data) by done.
  rewrite Hp. rewrite console_broadcast_step by done. cbn [server].
  match goal with |- context [send_udp_broadcast net ?m ?s] =>
    destruct (send_udp_broadcast_spec net m s)
      as (sc & fc & evs & _ & -> & Hudp & _)
  end.
  cbn [out active_clients] in *.
  eexists. split; [reflexivity|].
  rewrite !udp_sends_app, !elem_of_app. right. left.
  rewrite Hudp. apply list_elem_of_In.
  set (e := entry_of client_sock client_addr name udp_port).
  replace {| sin_addr := sin_addr client_addr; sin_port := udp_port |}
    with (udp_addr e)
    by (unfold e, entry_of, htons; cbn; by rewrite Z.mod_small).
  change (In ((λ p : string * ClientInfo,
                 (udp_addr p.2, "SERVER BROADCAST: " +:+ text)) (name, e))
             (map (λ p : string * ClientInfo,
                     (udp_addr p.2, "SERVER BROADCAST: " +:+ text))
                (in_order (<[name := e]> (active_clients (server sys)))))).
  apply in_map, list_elem_of_In. rewrite in_order_Permutation.
  apply elem_of_map_to_list, lookup_insert_eq.
Qed.

(** [Lahore] registers port 9001 from [127.0.0.1]; the console broadcast
    that follows sends one datagram, and it is sent there. *)
Lemma registered_peer_receives_broadcast_witness :
  let sys1 :=
    step ideal_net (Recv 4 (Received "Lahore:9001"))
      (step ideal_net (Accept 4 (peer 1)) init) in
  ∃ new,
    out (server (step ideal_net (ConsoleLine ("BROADCAST:" +:+ "hi")) sys1))
      = (out (server sys1) ++ new)%list
    ∧ ({| sin_addr := 2130706433; sin_port := 9001 |},
       "SERVER BROADCAST: " +:+ "hi") ∈ udp_sends new.
Proof.
  assert (Hport : (0 ≤ 9001 < 65536)%Z) by lia.
  exact (registered_peer_receives_broadcast ideal_net
           (step ideal_net (Accept 4 (peer 1)) init) 4 (peer 1)
           "Lahore:9001" "Lahore" "hi" 9001 eq_refl eq_refl eq_refl Hport).
Defined.

(** X9: a payload read in the receive loop, well formed or not, whose
    handling runs to its end (every [send] and [sendto] it makes returns,
    with or without an error) changes neither the directory nor the
    threads, closes nothing and leaves the process running: entries come
    and go only through registration and disconnection, and a delivery
    that returns an error leaves the destination's entry in place.  The
    one other way the handling can end is at its stream write, when that
    write raises SIGPIPE: this can happen exactly for the payloads whose
    handling makes a stream write; the process then stops there, holding
    [clients_mutex], with the directory and the descriptors as they
    were. *)
Theorem payloads_never_change_directory (net : Net) (sys : System)
    (client_sock : Z) (name data : string) :
  let sys' := step net (Recv client_sock (Received data)) sys in
  let killed := step net (Sigpipe client_sock data) sys in
  halted sys = false →
  threads sys !! client_sock = Some (Registered name) →
  data ≠ "" →
  (active_clients (server sys') = active_clients (server sys)
   ∧ threads sys' = threads sys
   ∧ halted sys' = false
   ∧ ∃ new, out (server sys') = (out (server sys) ++ new)%list
            ∧ closes new = []
            ∧ (halted killed = true ↔ tcp_sends new ≠ []))
  ∧ (active_clients (server killed) = active_clients (server sys)
     ∧ threads killed = threads sys
     ∧ ∃ pre, out (server killed) = (out (server sys) ++ pre)%list
              ∧ closes pre = []
              ∧ (halted killed = true →
                 mutex_trace false pre = Some true
                 ∧ ∃ k m, tcp_sends pre = [(k, m)] ∧ last pre = Some (TcpSend k m))).
Proof.
  intros sys' killed Hh Ht Hne.
  assert (Hk : killed =
    match route_tcp_message_sigpipe name (Str.c_str data) (server sys) with
    | Some s => {| server := s; threads := threads sys;
                   closing := closing sys; halted := true |}
    | None => sys
    end).
  { subst killed. unfold step. rewrite Hh, Ht. by destruct data. }
  subst sys'. rewrite step_recv_data with (name := name) by done.
  rewrite Hk. clear Hk killed.
  rewrite route_parse, route_sigpipe_parse.
  assert (Hidle : ∃ pre, out (server sys) = (out (server sys) ++ pre)%list
              ∧ closes pre = []
              ∧ (halted sys = true →
                 mutex_trace false pre = Some true
                 ∧ ∃ k m, tcp_sends pre = [(k, m)] ∧ last pre = Some (TcpSend k m))).
  { exists []. rewrite app_nil_r. split; [done|]. split; [done|].
    intros H. by rewrite Hh in H. }
  destruct (parse_message (Str.c_str data)) as [[destination content]|].
  - cbv zeta. case_decide as Hb.
    + destruct (send_udp_broadcast_events net (broadcast_msg name content)
                  (emit (Log (LogRouting name destination)) (server sys)))
        as (evs & -> & _ & Htcp & Hc).
      cbn [server threads halted active_clients out emit].
      split; [|done]. repeat split.
      exists (Log (LogRouting name destination) :: evs).
      rewrite <- app_assoc. split; [done|]. split; [done|].
      change (tcp_sends (Log (LogRouting name destination) :: evs))
        with (tcp_sends evs).
      rewrite Htcp, Hh. split; [discriminate|done].
    + destruct (active_clients (server sys) !! destination) as [it|].
      * cbn [server threads halted active_clients out].
        split.
        -- repeat split. eexists. split; [done|]. split; [done|].
           split; [discriminate|done].
        -- repeat split. eexists. split; [done|]. split; [done|].
           intros _. split; [done|]. eexists _, _. split; done.
      * destruct (active_clients (server sys) !! name) as [sender_it|].
        -- cbn [server threads halted active_clients out].
           split.
           ++ repeat split. eexists. split; [done|]. split; [done|].
              split; [discriminate|done].
           ++ repeat split. eexists. split; [done|]. split; [done|].
              intros _. split; [done|]. eexists _, _. split; done.
        -- cbn [server threads halted active_clients out].
           split; [|done]. repeat split.
           eexists. split; [done|]. split; [done|].
           rewrite Hh. split; [discriminate|done].
  - cbn [server threads halted active_clients out emit].
    split; [|done]. repeat split.
    eexists. split; [done|]. split; [done|].
    rewrite Hh. split; [discriminate|done].
Qed.

(** A message from [Lahore] to [Karachi] whose write returns an error
    leaves [Karachi] registered; when the write raises SIGPIPE instead,
    the process stops. *)
Lemma payloads_never_change_directory_witness :
  let broken := {| send_ok := λ _ _ _, false; sendto_ok := λ _ _ _, false |} in
  let sys := run ideal_net two_campuses init in
  lookup_client "Karachi" (step broken (Recv 4 (Received "Karachi:hello")) sys)
    = Some (entry_of 5 (peer 2) "Karachi" 9002)
  ∧ halted (step broken (Recv 4 (Received "Karachi:hello")) sys) = false
  ∧ halted (step broken (Sigpipe 4 "Karachi:hello") sys) = true.
Proof.
  intros broken sys.
  assert (Hne : "Karachi:hello" ≠ "") by discriminate.
  destruct (payloads_never_change_directory broken sys 4 "Lahore" "Karachi:hello"
              eq_refl eq_refl Hne) as [(Hdir & _ & Hrun & _) _].
  unfold lookup_client. rewrite Hdir.
  split; [vm_compute; reflexivity|]. split; [exact Hrun|].
  vm_compute. reflexivity.
Defined.

(** ** Several registrations *)

Lemma connect_and_register_run (net : Net) (c : connection) (sys : System)
    (name : string) (udp_port : Z) :
  halted sys = false →
  (0 ≤ conn_sock c)%Z →
  threads sys !! conn_sock c = None →
  parse_registration (conn_data c) = Some (name, udp_port) →
  run net (connect_and_register c) sys =
    {| server :=
         {| active_clients :=
              <[name := entry_of (conn_sock c) (conn_addr c) name udp_port]>
                (active_clients (server sys));
            out := out (server sys) ++
              [Log (LogAccepted (conn_addr c));
               Lock; Log (LogRegistration name udp_port);
               TcpSend (conn_sock c) (welcome_msg name); Unlock] |};
       threads := <[conn_sock c := Registered name]> (threads sys);
       closing := closing sys;
       halted := false |}.
Proof.
  intros Hh Hsock Hfree Hp.
  pose proof (parse_registration_nonempty _ _ _ Hp) as Hne.
  unfold connect_and_register. cbn [run fold_left].
  assert (Hacc : step net (Accept (conn_sock c) (conn_addr c)) sys =
    {| server := emit (Log (LogAccepted (conn_addr c))) (server sys);
       threads := <[conn_sock c := Connected (conn_addr c)]> (threads sys);
       closing := closing sys;
       halted := false |}).
  { unfold step. rewrite Hh, Hfree.
    by replace (conn_sock c <? 0)%Z with false by (symmetry; by apply Z.ltb_ge). }
  rewrite Hacc.
  rewrite step_recv_first with (client_addr := conn_addr c);
    [|done|by apply lookup_insert_eq|done].
  rewrite Hp. cbn [server threads]. norm_out.
  by rewrite insert_insert_eq.
Qed.

Lemma registrations_from (net : Net) (conns : list connection) (sys : System) :
  halted sys = false →
  Forall (λ c, (0 ≤ conn_sock c)%Z ∧ is_Some (conn_name c)
               ∧ threads sys !! conn_sock c = None
               ∧ ∀ name, conn_name c = Some name →
                         active_clients (server sys) !! name = None) conns →
  NoDup (conn_sock <$> conns) →
  NoDup (conn_name <$> conns) →
  let sys' := run net (conns ≫= connect_and_register) sys in
  halted sys' = false
  ∧ size (active_clients (server sys')) =
      size (active_clients (server sys)) + List.length conns
  ∧ (∀ c, c ∈ conns →
       ∃ name, conn_name c = Some name
               ∧ active_clients (server sys') !! name = conn_entry c
               ∧ threads sys' !! conn_sock c = Some (Registered name))
  ∧ (∀ name, Some name ∉ conn_name <$> conns →
       active_clients (server sys') !! name = active_clients (server sys) !! name)
  ∧ (∀ k, k ∉ conn_sock <$> conns → threads sys' !! k = threads sys !! k).
Proof.
  revert sys. induction conns as [|c conns IH]; intros sys Hh Hall Hsocks Hnames.
  - cbn. repeat split; try done. by intros c ?%elem_of_nil.
  - apply Forall_cons in Hall as [(Hsock & [name Hname] & Hfree & Hnew) Hall].
    rewrite fmap_cons in Hsocks. rewrite fmap_cons in Hnames.
    apply NoDup_cons in Hsocks as [Hsock_c Hsocks].
    apply NoDup_cons in Hnames as [Hname_c Hnames].
    assert (∃ udp_port, parse_registration (conn_data c) = Some (name, udp_port))
      as [udp_port Hp].
    { unfold conn_name in Hname.
      destruct (parse_registration (conn_data c)) as [[n p]|]; [|done].
      injection Hname as ->. by exists p. }
    cbn zeta. cbn [mbind list_bind]. rewrite run_app.
    rewrite (connect_and_register_run net c sys name udp_port)
      by (done || by apply Hnew).
    set (sys1 := {| server := _; threads := _; closing := _; halted := false |}).
    destruct (IH sys1) as (Hh' & Hsize & Hin & Hframe & Hthreads); try done.
    { apply Forall_forall. intros c' Hc'.
      rewrite Forall_forall in Hall.
      destruct (Hall c' Hc') as (Hs' & Hn' & Hf' & Hnew').
      repeat split; try done.
      - unfold sys1. cbn [threads]. rewrite lookup_insert_ne; [done|].
        intros Heq. apply Hsock_c. rewrite Heq. by apply list_elem_of_fmap_2.
      - intros name' Hname'. unfold sys1. cbn [server active_clients].
        rewrite lookup_insert_ne; [by apply Hnew'|].
        intros <-. apply Hname_c. rewrite Hname, <- Hname'.
        by apply list_elem_of_fmap_2. }
    split; [done|]. split; [|split; [|split]].
    + rewrite Hsize. unfold sys1. cbn [server active_clients List.length].
      rewrite map_size_insert_None by (by apply Hnew). lia.
    + intros c' [->|Hc']%elem_of_cons.
      * exists name. split; [done|]. split.
        -- rewrite Hframe by (by rewrite <- Hname).
           unfold sys1, conn_entry. cbn [server active_clients].
           rewrite Hp. cbn. by rewrite lookup_insert_eq.
        -- rewrite Hthreads by done. unfold sys1. cbn [threads].
           by rewrite lookup_insert_eq.
      * by apply Hin.
    + intros name' Hname'. rewrite fmap_cons, not_elem_of_cons in Hname'.
      destruct Hname' as [Hne Hrest]. rewrite Hframe by done.
      unfold sys1. cbn [server active_clients].
      rewrite lookup_insert_ne; [done|]. intros <-. by rewrite Hname in Hne.
    + intros k Hk. rewrite fmap_cons, not_elem_of_cons in Hk.
      destruct Hk as [Hne Hrest]. rewrite Hthreads by done.
      unfold sys1. cbn [threads]. by rewrite lookup_insert_ne.
Qed.

(** X10: when any number of peers connect on distinct descriptors and
    register under distinct names, every registration succeeds: the
    directory has exactly one entry per peer, the lookup of each name
    gives that peer's socket and datagram address, and each peer's thread
    is in its receive loop under its name. *)
Theorem distinct_registrations_all_present (net : Net) (conns : list connection) :
  Forall (λ c, (0 ≤ conn_sock c)%Z ∧ is_Some (conn_name c)) conns →
  NoDup (conn_sock <$> conns) →
  NoDup (conn_name <$> conns) →
  let sys := run net (conns ≫= connect_and_register) init in
  size (active_clients (server sys)) = List.length conns
  ∧ ∀ c, c ∈ conns →
      ∃ name, conn_name c = Some name
              ∧ lookup_client name sys = conn_entry c
              ∧ is_Some (conn_entry c)
              ∧ threads sys !! conn_sock c = Some (Registered name).
Proof.
  intros Hall Hsocks Hnames sys.
  destruct (registrations_from net conns init) as (_ & Hsize & Hin & _);
    try done.
  { eapply Forall_impl; [exact Hall|]. intros c [Hs Hn]. repeat split; try done. }
  fold sys in Hsize, Hin. split; [by rewrite Hsize|].
  intros c Hc. destruct (Hin c Hc) as (name & Hname & Hl & Ht).
  exists name. repeat split; try done.
  unfold conn_entry, conn_name in *.
  by destruct (parse_registration (conn_data c)).
Qed.

(** ** Decimal numbers in payloads *)

Lemma string_app_assoc (a b c : string) : (a +:+ b) +:+ c = a +:+ b +:+ c.
Proof.
  induction a as [|x a IH]; [done|].
  change (String x ((a +:+ b) +:+ c) = String x (a +:+ b +:+ c)). by rewrite IH.
Qed.

Lemma string_app_nil_r (a : string) : a +:+ "" = a.
Proof.
  induction a as [|x a IH]; [done|].
  change (String x (a +:+ "") = String x a). by rewrite IH.
Qed.

Lemma string_app_length (a b : string) :
  String.length (a +:+ b) = String.length a + String.length b.
Proof.
  induction a as [|x a IH]; [done|].
  change (S (String.length (a +:+ b)) = S (String.length a + String.length b)).
  by rewrite IH.
Qed.

Lemma c_str_app (a b : string) :
  nul_free a → Str.c_str (a +:+ b) = a +:+ Str.c_str b.
Proof.
  unfold nul_free. induction a as [|x a IH]; [done|].
  change (String x a +:+ b) with (String x (a +:+ b)). cbn [Str.c_str].
  destruct (Ascii.eqb x zero); [done|]. intros [= Ha].
  change (String x a +:+ Str.c_str b) with (String x (a +:+ Str.c_str b)).
  by rewrite IH.
Qed.

Lemma isdigit_not_nul (c : ascii) :
  Stoi.isdigit c = true → Ascii.eqb c zero = false.
Proof.
  intros H. destruct (Ascii.eqb c zero) eqn:E; [|done].
  apply Ascii.eqb_eq in E. by subst.
Qed.

Lemma all_digits_nul_free (s : string) : all_digits s = true → nul_free s.
Proof.
  unfold nul_free. induction s as [|c s IH]; [done|].
  cbn [all_digits Str.c_str]. intros [Hc Hs]%andb_prop.
  by rewrite (isdigit_not_nul c Hc), IH.
Qed.

Lemma all_digits_app (a b : string) :
  all_digits (a +:+ b) = all_digits a && all_digits b.
Proof.
  induction a as [|x a IH]; [done|].
  change (String x a +:+ b) with (String x (a +:+ b)). cbn [all_digits].
  by rewrite IH, andb_assoc.
Qed.

(** Reading a run of digits, then going on with the rest. *)
Lemma digits_app (a rest : string) (acc : Z) :
  all_digits a = true →
  Stoi.digits acc (a +:+ rest) = Stoi.digits (Stoi.digits acc a) rest.
Proof.
  revert acc. induction a as [|x a IH]; intros acc; [done|].
  change (String x a +:+ rest) with (String x (a +:+ rest)).
  cbn [all_digits Stoi.digits]. intros [-> Ha]%andb_prop. by apply IH.
Qed.

Lemma digits_all (a : string) (acc : Z) :
  all_digits a = true →
  Stoi.digits acc a =
    (acc * 10 ^ Z.of_nat (String.length a) + Stoi.digits 0 a)%Z.
Proof.
  revert acc. induction a as [|x a IH]; intros acc; [cbn; lia|].
  cbn [all_digits Stoi.digits String.length]. intros [-> Ha]%andb_prop.
  rewrite (IH (10 * acc + Stoi.digit_value x)%Z Ha),
          (IH (10 * 0 + Stoi.digit_value x)%Z Ha).
  rewrite Nat2Z.inj_succ, Z.pow_succ_r by lia. lia.
Qed.

Lemma digit_char_spec (d : Z) :
  (0 ≤ d < 10)%Z →
  Stoi.isdigit (ToString.digit_char d) = true
  ∧ Stoi.digit_value (ToString.digit_char d) = d.
Proof.
  intros H.
  assert (d = 0 ∨ d = 1 ∨ d = 2 ∨ d = 3 ∨ d = 4 ∨ d = 5 ∨ d = 6 ∨ d = 7
          ∨ d = 8 ∨ d = 9)%Z as Hd by lia.
  repeat (destruct Hd as [->|Hd]; [by vm_compute|]). subst. by vm_compute.
Qed.

(** [decimal] writes a non-empty run of digits whose value is [n]. *)
Lemma decimal_spec (fuel : nat) (n : Z) (acc : string) :
  (0 ≤ n < 10 ^ Z.of_nat fuel)%Z →
  fuel ≠ 0 →
  ∃ s, ToString.decimal fuel n acc = s +:+ acc
       ∧ all_digits s = true ∧ s ≠ "" ∧ Stoi.digits 0 s = n.
Proof.
  revert n acc. induction fuel as [|fuel IH]; intros n acc Hn Hfuel; [done|].
  - cbn [ToString.decimal].
    assert (0 ≤ n mod 10 < 10)%Z as Hmod by (apply Z.mod_pos_bound; lia).
    destruct (digit_char_spec _ Hmod) as [Hd Hv].
    destruct (n <? 10)%Z eqn:Hlt.
    + apply Z.ltb_lt in Hlt. exists (String (ToString.digit_char (n mod 10)) "").
      repeat split; try done.
      * cbn [all_digits]. by rewrite Hd.
      * cbn [Stoi.digits]. rewrite Hd, Hv. rewrite Z.mod_small; lia.
    + apply Z.ltb_ge in Hlt.
      destruct (IH (n / 10)%Z (String (ToString.digit_char (n mod 10)) acc))
        as (s & -> & Hall & Hne & Hval).
      { rewrite Nat2Z.inj_succ, Z.pow_succ_r in Hn by lia.
        split; [apply Z.div_pos; lia|]. apply Z.div_lt_upper_bound; lia. }
      { intros ->. cbn in Hn. lia. }
      exists (s +:+ String (ToString.digit_char (n mod 10)) "").
      repeat split.
      * by rewrite string_app_assoc.
      * rewrite all_digits_app, Hall. cbn [all_digits]. by rewrite Hd.
      * by destruct s.
      * rewrite digits_app by done. cbn [Stoi.digits]. rewrite Hd, Hv, Hval.
        pose proof (Z.div_mod n 10). lia.
Qed.

Lemma stoi_minus_digit (c : ascii) (r : string) :
  Stoi.isdigit c = true →
  Stoi.stoi (String "-" (String c r)) =
    let v := (- Stoi.digits 0 (String c r))%Z in
    if (Stoi.INT_MIN <=? v)%Z && (v <=? Stoi.INT_MAX)%Z then Some v else None.
Proof.
  intros H. unfold Stoi.stoi.
  change (Stoi.skip_space (String "-" (String c r))) with (String "-" (String c r)).
  cbv iota beta. cbn [Stoi.starts_with_digit]. by rewrite H.
Qed.

(** [std::stoi] reads back what [std::to_string] wrote, and what it wrote
    has no NUL byte. *)
Lemma stoi_to_string (n : Z) :
  (Stoi.INT_MIN ≤ n ≤ Stoi.INT_MAX)%Z →
  Stoi.stoi (ToString.to_string n) = Some n ∧ nul_free (ToString.to_string n).
Proof.
  unfold Stoi.INT_MIN, Stoi.INT_MAX. intros Hn. unfold ToString.to_string.
  destruct (n <? 0)%Z eqn:Hneg.
  - apply Z.ltb_lt in Hneg.
    destruct (decimal_spec 10 (- n) "") as (s & -> & Hall & Hne & Hval);
      [cbn; lia|done|].
    rewrite string_app_nil_r. destruct s as [|c r]; [done|].
    pose proof Hall as Hall'. cbn [all_digits] in Hall'.
    apply andb_prop in Hall' as [Hc _]. split.
    + rewrite stoi_minus_digit by done. cbv zeta. rewrite Hval.
      replace (- - n)%Z with n by lia.
      replace (Stoi.INT_MIN <=? n)%Z with true
        by (symmetry; apply Z.leb_le; unfold Stoi.INT_MIN; lia).
      replace (n <=? Stoi.INT_MAX)%Z with true
        by (symmetry; apply Z.leb_le; unfold Stoi.INT_MAX; lia).
      done.
    + unfold nul_free. change (Str.c_str (String "-" (String c r)))
        with (String "-" (Str.c_str (String c r))).
      by rewrite (all_digits_nul_free _ Hall).
  - apply Z.ltb_ge in Hneg.
    destruct (decimal_spec 10 n "") as (s & -> & Hall & Hne & Hval);
      [cbn; lia|done|].
    rewrite string_app_nil_r. split; [|by apply all_digits_nul_free].
    destruct s as [|c r]; [done|].
    pose proof Hall as Hall'. cbn [all_digits] in Hall'.
    apply andb_prop in Hall' as [Hc _].
    rewrite stoi_leading_digit by done. cbv zeta. rewrite Hval.
    replace (Stoi.INT_MIN <=? n)%Z with true
      by (symmetry; apply Z.leb_le; unfold Stoi.INT_MIN; lia).
    replace (n <=? Stoi.INT_MAX)%Z with true
      by (symmetry; apply Z.leb_le; unfold Stoi.INT_MAX; lia).
    done.
Qed.

Lemma stoi_range (s : string) (v : Z) :
  Stoi.stoi s = Some v → (Stoi.INT_MIN ≤ v ≤ Stoi.INT_MAX)%Z.
Proof.
  unfold Stoi.stoi.
  destruct (match Stoi.skip_space s with
            | String "-" r => (true, r)
            | String "+" r => (false, r)
            | _ => (false, Stoi.skip_space s)
            end) as [negative s'].
  destruct (Stoi.starts_with_digit s'); [|done].
  destruct (_ && _) eqn:E; [|done]. intros [= <-].
  apply andb_prop in E as [?%Z.leb_le ?%Z.leb_le]. done.
Qed.

(** A payload [<name>:<port segment>] as the handshake sees it. *)
Lemma parse_registration_app (name segment : string) :
  nul_free name →
  Str.find ":" name = None →
  parse_registration (name +:+ ":" +:+ segment) =
    (λ port, (name, port)) <$> Stoi.stoi (Str.c_str segment).
Proof.
  intros Hnul Hcolon. unfold parse_registration.
  rewrite c_str_app by done.
  change (Str.c_str (":" +:+ segment)) with (String ":" (Str.c_str segment)).
  rewrite StrFacts.find_app by done. cbn [mbind option_bind].
  unfold Str.substr.
  rewrite StrFacts.drop_0, StrFacts.take_app, StrFacts.drop_app.
  by destruct (Stoi.stoi (Str.c_str segment)).
Qed.

(** X11: [std::stoi] stops at the first character that is not a digit, so
    a first payload with anything after the digits of the port (a line
    end, a space, more text) registers exactly as the payload cut after
    the digits. *)
Theorem registration_ignores_text_after_port (net : Net) (client_sock : Z)
    (client_addr : sockaddr_in) (s : Server) (name ds rest : string) (c : ascii) :
  nul_free name →
  Str.find ":" name = None →
  all_digits ds = true →
  ds ≠ "" →
  Stoi.isdigit c = false →
  handle_client_registration net client_sock client_addr
      (Received (name +:+ ":" +:+ ds +:+ String c rest)) s =
  handle_client_registration net client_sock client_addr
      (Received (name +:+ ":" +:+ ds)) s.
Proof.
  intros Hnul Hcolon Hds Hne Hc.
  rewrite !registration_parse by apply app_colon_nonempty.
  assert (Hfind : ∀ seg, Str.find ":" (Str.c_str (name +:+ ":" +:+ seg))
                         = Some (String.length name)).
  { intros seg. rewrite c_str_app by done.
    change (Str.c_str (":" +:+ seg)) with (String ":" (Str.c_str seg)).
    by apply StrFacts.find_app. }
  rewrite !Hfind, !parse_registration_app by done.
  rewrite c_str_app by (by apply all_digits_nul_free).
  rewrite (all_digits_nul_free ds Hds).
  assert (Stoi.stoi (ds +:+ Str.c_str (String c rest)) = Stoi.stoi ds) as ->; [|done].
  destruct ds as [|d ds]; [done|].
  pose proof Hds as Hds'. cbn [all_digits] in Hds'.
  apply andb_prop in Hds' as [Hd _].
  change (String d ds +:+ Str.c_str (String c rest))
    with (String d (ds +:+ Str.c_str (String c rest))).
  rewrite !stoi_leading_digit by done. cbv zeta.
  change (String d (ds +:+ Str.c_str (String c rest)))
    with (String d ds +:+ Str.c_str (String c rest)).
  rewrite digits_app by done.
  assert (∀ acc, Stoi.digits acc (Str.c_str (String c rest)) = acc) as ->; [|done].
  intros acc. cbn [Str.c_str]. destruct (Ascii.eqb c zero); [done|].
  cbn [Stoi.digits]. by rewrite Hc.
Qed.

(** [Lahore:9001] followed by a line feed registers like [Lahore:9001]. *)
Lemma registration_ignores_text_after_port_witness :
  (handle_client_registration ideal_net 4 (peer 1)
     (Received ("Lahore" +:+ ":" +:+ "9001" +:+ String "010" "")) (server init)).1
  = Some "Lahore".
Proof.
  assert (Hne : "9001" ≠ "") by discriminate.
  rewrite (registration_ignores_text_after_port ideal_net 4 (peer 1) (server init)
             "Lahore" "9001" "" "010" eq_refl eq_refl eq_refl Hne eq_refl).
  reflexivity.
Defined.

(** A [recv] that finds no more bytes waiting than its buffer takes
    hands all of them over. *)
Lemma recv_fits (data : string) : fits_buffer data → recv data = Received data.
Proof.
  unfold fits_buffer, recv, BUFFER_SIZE. intros H.
  rewrite StrFacts.take_all; [done|lia].
Qed.



(** X16: a first payload longer than [BUFFER_SIZE - 1] bytes is cut by
    the server's [recv].  For a campus name of 1019 bytes and port 9001
    the payload has 1024 bytes; the handshake reads the first 1023,
    [<name>:900], and files the name with port 900. *)
Theorem long_registration_is_cut :
  let name := repeat_char "a" 1019 in
  let payload := Client.registration_msg name 9001 in
  let registered :=
    handle_client_registration ideal_net 4 (peer 1) (recv payload) (server init) in
  String.length payload = 1024
  ∧ parse_registration payload = Some (name, 9001%Z)
  ∧ recv payload = Received (name +:+ ":900")
  ∧ registered.1 = Some name
  ∧ udp_addr <$> active_clients registered.2 !! name =
      Some {| sin_addr := 2130706433; sin_port := 900 |}.
Proof. vm_compute. done. Qed.

(** * The client *)

Module ClientFacts.
Import Client.

Lemma setup_udp_listener_result (os : Os) (port_num : Z) :
  (setup_udp_listener os port_num).1 = (-1)%Z
  ∨ ((setup_udp_listener os port_num).1 = udp_socket os ∧ (0 ≤ udp_socket os)%Z).
Proof.
  unfold setup_udp_listener. destruct (udp_socket os <? 0)%Z eqn:E; [by left|].
  destruct (bind_ok os); [|by left]. right. split; [done|]. by apply Z.ltb_ge.
Qed.

Lemma sends_app (l l' : list io) : sends (l ++ l') = (sends l ++ sends l')%list.
Proof. apply omap_app. Qed.

(** X13: when [main] gives up before its input loop it returns
    [EXIT_FAILURE], has started no receiver thread, and has closed every
    descriptor that [socket] had handed out: no socket is left open on a
    failed start. *)
Theorem startup_failure_closes_sockets (os : Os) (argv : list string)
    (status : Z) (evs : list io) :
  startup os argv = (inr status, evs) →
  status = EXIT_FAILURE
  ∧ (∀ tcp_fd udp_fd, StartReceiver tcp_fd udp_fd ∉ evs)
  ∧ ∀ kind fd, SocketCall kind fd ∈ evs → (0 ≤ fd)%Z → Close fd ∈ evs.
Proof.
  unfold startup, setup_udp_listener, setup_tcp_connection.
  destruct argv as [|program [|name [|port_arg [|? ?]]]];
    try (intros [= <- <-]; events_case).
  destruct (Stoi.stoi port_arg) as [port|]; [|intros [= <- <-]; events_case].
  destruct (udp_socket os <? 0)%Z eqn:Hudp.
  { cbn. intros [= <- <-]. apply Z.ltb_lt in Hudp. events_case. }
  destruct (bind_ok os); [|cbn; intros [= <- <-]; events_case].
  rewrite Hudp.
  destruct (tcp_socket os <? 0)%Z eqn:Htcp.
  { cbn. intros [= <- <-]. apply Z.ltb_lt in Htcp. events_case. }
  destruct (pton_ok os); cbn [negb]; [|cbn; intros [= <- <-]; events_case].
  destruct (connect_ok os); cbn [negb]; [|cbn; intros [= <- <-]; events_case].
  destruct (send_ok os); cbn [negb]; [|cbn; intros [= <- <-]; events_case].
  by rewrite Htcp.
Qed.

(** A start that fails at [connect]: the datagram socket 3 and the stream
    socket 4 are both closed. *)
Lemma startup_failure_closes_sockets_witness :
  let os := {| udp_socket := 3; bind_ok := true; tcp_socket := 4;
               pton_ok := true; connect_ok := false; send_ok := true |} in
  Close 3 ∈ (startup os ["client"; "Lahore"; "9001"]).2
  ∧ Close 4 ∈ (startup os ["client"; "Lahore"; "9001"]).2.
Proof.
  intros os.
  destruct (startup_failure_closes_sockets os ["client"; "Lahore"; "9001"]
              EXIT_FAILURE (startup os ["client"; "Lahore"; "9001"]).2 eq_refl)
    as (_ & _ & H).
  split; [apply (H Datagram)|apply (H Stream)]; try lia;
    apply list_elem_of_In; cbn [In startup snd];
    repeat (first [left; reflexivity | right]).
Defined.

(** What a successful start has done. *)
Lemma startup_success (os : Os) (argv : list string) (ses : session)
    (evs : list io) :
  startup os argv = (inl ses, evs) →
  ∃ program port_arg,
    argv = [program; campus_name ses; port_arg]
    ∧ Stoi.stoi port_arg = Some (local_udp_port ses)
    ∧ tcp_sock ses = tcp_socket os ∧ (0 ≤ tcp_sock ses)%Z
    ∧ udp_sock ses = udp_socket os ∧ (0 ≤ udp_sock ses)%Z
    ∧ evs =
        [SocketCall Datagram (udp_sock ses); SetReuseAddr (udp_sock ses);
         Bind (udp_sock ses) (htons (local_udp_port ses));
         Print (LogUdpBound (local_udp_port ses));
         SocketCall Stream (tcp_sock ses);
         Connect (tcp_sock ses)
           {| sin_addr := SERVER_IP; sin_port := htons TCP_PORT |};
         Print LogConnected;
         Send (tcp_sock ses)
           (registration_msg (campus_name ses) (local_udp_port ses));
         Print (LogStarted (campus_name ses) (local_udp_port ses));
         StartReceiver (tcp_sock ses) (udp_sock ses);
         Print LogHelp].
Proof.
  unfold startup, setup_udp_listener, setup_tcp_connection.
  destruct argv as [|program [|name [|port_arg [|? ?]]]]; try done.
  destruct (Stoi.stoi port_arg) as [port|] eqn:Hstoi; [|done].
  destruct (udp_socket os <? 0)%Z eqn:Hudp; [done|].
  destruct (bind_ok os); [|done]. rewrite Hudp.
  destruct (tcp_socket os <? 0)%Z eqn:Htcp; [done|].
  destruct (pton_ok os); cbn [negb]; [|done].
  destruct (connect_ok os); cbn [negb]; [|done].
  destruct (send_ok os); cbn [negb]; [|done].
  rewrite Htcp. intros [= <- <-]. cbn.
  apply Z.ltb_ge in Hudp. apply Z.ltb_ge in Htcp.
  exists program, port_arg. repeat split; done.
Qed.

End ClientFacts.



(** ** The input loop of the client *)

Lemma lines_read_not_exit (turns : list Client.turn) (l : string) :
  l ∈ Client.lines_read turns → l ≠ "exit" ∧ l ≠ "quit".
Proof.
  induction turns as [|t turns IH]; cbn [Client.lines_read].
  - by intros ?%elem_of_nil.
  - destruct (negb (Client.running t)); [by intros ?%elem_of_nil|].
    destruct (Client.line t) as [l'|]; [|by intros ?%elem_of_nil].
    case_decide as Hl; [by intros ?%elem_of_nil|].
    intros [->|Hin]%elem_of_cons; [|by apply IH].
    split; intros ->; apply Hl; [by left|by right].
Qed.

Lemma input_loop_sends (ses : Client.session) (turns : list Client.turn) :
  Client.sends (Client.input_loop ses turns).1 =
    map (λ l, (Client.tcp_sock ses, l))
      (List.filter (λ l, negb (String.eqb l "")) (Client.lines_read turns)).
Proof.
  induction turns as [|t turns IH]; [done|].
  cbn [Client.input_loop Client.lines_read].
  destruct (negb (Client.running t)); [done|].
  destruct (Client.line t) as [l|]; [|done].
  case_decide; [done|].
  destruct (Client.input_loop ses turns) as [evs ended]. cbn [fst] in IH.
  case_decide as Hl.
  - subst l. cbn [fst List.filter String.eqb negb]. exact IH.
  - cbn [fst List.filter].
    replace (String.eqb l "") with false
      by (symmetry; by apply String.eqb_neq).
    cbn [negb map]. rewrite <- IH.
    change (Client.sends (Client.Print (Client.LogPrompt (Client.campus_name ses))
                          :: Client.Send (Client.tcp_sock ses) l
                          :: (if Client.sent_ok t then []
                              else [Client.Print Client.LogSendFailed]) ++ evs))
      with ((Client.tcp_sock ses, l)
            :: Client.sends ((if Client.sent_ok t then []
                              else [Client.Print Client.LogSendFailed]) ++ evs)).
    by destruct (Client.sent_ok t).
Qed.


(** Two peers, two names: two entries. *)
Lemma distinct_registrations_all_present_witness :
  size (active_clients (server
    (run ideal_net
       ([ {| conn_sock := 4; conn_addr := peer 1; conn_data := "Lahore:9001" |};
          {| conn_sock := 5; conn_addr := peer 2; conn_data := "Karachi:9002" |} ]
        ≫= connect_and_register) init))) = 2.
Proof.
  refine (proj1 (distinct_registrations_all_present ideal_net
    [ {| conn_sock := 4; conn_addr := peer 1; conn_data := "Lahore:9001" |};
      {| conn_sock := 5; conn_addr := peer 2; conn_data := "Karachi:9002" |} ]
    _ _ _)).
  - repeat constructor; try (cbn; lia); by eexists.
  - apply (bool_decide_unpack _). vm_compute. exact I.
  - apply (bool_decide_unpack _). vm_compute. exact I.
Defined.
